(** * Algorithmic nudge audit: a shallow embedding of [audit_framework.py]

    The script simulates an A/B test table ([simulate_data]), derives the
    Nudge Autonomy Deficit columns ([calculate_autonomy_deficit]) and
    computes the two trade-off figures that are handed to the plotting
    surface ([generate_visualization]).

    Numbers are modelled as the code has them: [float] is IEEE 754 binary64
    (Python's [float], numpy's [float64]) and int64 columns hold integers.
    A pandas [DataFrame] is an ordered list of named, typed columns.  The
    unseeded numpy generator is an explicit [RandomState]: the arrays each
    [np.random] call returns. *)

From Stdlib Require Import ZArith List String Bool Lia FinFun Floats.
From Stdlib Require Import Sorted.
From Stdlib Require OrderedTypeEx.
Import ListNotations.

Set Warnings "-inexact-float".
Local Open Scope Z_scope.

Ltac Zify.zify_post_hook ::= Z.to_euclidean_division_equations.

(* ================================================================== *)
(** ** numpy scalar operations on binary64 *)

(** Conversion of an integer to the nearest binary64 (numpy's cast of an
    int64 to float64, exact below 2^53). *)
Definition float_of_Z (z : Z) : float :=
  SF2Prim (binary_normalize prec emax z 0 false).

(** Nearest integer to [m / 2^sh], ties to the even one. *)
Definition round_half_even (m sh : Z) : Z :=
  let q := m / 2 ^ sh in
  let r := m mod 2 ^ sh in
  let h := 2 ^ (sh - 1) in
  if r <? h then q else if h <? r then q + 1 else if Z.even q then q else q + 1.

(** [np.rint]: round to the nearest integer, ties to even; values with a
    non-negative exponent, zeros, infinities and NaN are already fixed. *)
Definition rint (x : float) : float :=
  match Prim2SF x with
  | S754_finite s m e =>
      if e <? 0 then
        let y := float_of_Z (round_half_even (Zpos m) (- e)) in
        if s then (- y)%float else y
      else x
  | _ => x
  end.

(** [np.round(x, decimals)] for [decimals >= 0]: multiply by [10**decimals],
    [rint], divide by [10**decimals]. *)
Definition np_round (decimals : nat) (x : float) : float :=
  let f := float_of_Z (10 ^ Z.of_nat decimals) in
  (rint (x * f) / f)%float.

(** [np.maximum] and [np.minimum] keep a NaN first argument. *)
Definition np_maximum (a b : float) : float :=
  if is_nan a then a else if (b <? a)%float then a else b.

Definition np_minimum (a b : float) : float :=
  if is_nan a then a else if (a <? b)%float then a else b.

(** [Series.clip(lower, upper)] on a float64 value: values below [lower]
    become [lower], values above [upper] become [upper], NaN stays. *)
Definition clip (x lower upper : float) : float :=
  np_minimum (np_maximum x lower) upper.

(** [Series.clip(lower, upper)] on an int64 value. *)
Definition clip_int (x lower upper : Z) : Z :=
  Z.min (Z.max x lower) upper.

(** [lo <= x <= hi] in binary64. *)
Definition between (lo hi x : float) : bool :=
  ((lo <=? x) && (x <=? hi))%float.

(* ================================================================== *)
(** ** pandas tables *)

Inductive column : Type :=
| IntCol (xs : list Z)         (* dtype int64 *)
| FloatCol (xs : list float)   (* dtype float64 *)
| ObjCol (xs : list string).   (* dtype object, holding str *)

(** The columns of a frame, in column order. *)
Definition DataFrame : Type := list (string * column).

Definition col_len (c : column) : nat :=
  match c with
  | IntCol xs => List.length xs
  | FloatCol xs => List.length xs
  | ObjCol xs => List.length xs
  end.

(** Every column of [df] has [n] rows. *)
Definition frame_rows (df : DataFrame) (n : nat) : Prop :=
  Forall (fun kc => col_len (snd kc) = n) df.

Definition columns (df : DataFrame) : list string := map fst df.

Inductive exn : Type :=
| KeyError (key : string)   (* a column label that is not in the frame *)
| TypeError                 (* arithmetic or mean on str values *)
| IndexError.               (* .iloc[0] on an empty selection *)

Inductive result (A : Type) : Type :=
| Ok (a : A)
| Raise (e : exn).
Arguments Ok {A} a.
Arguments Raise {A} e.

Definition bind {A B : Type} (r : result A) (k : A -> result B) : result B :=
  match r with
  | Ok a => k a
  | Raise e => Raise e
  end.

Notation "x <- r ;; k" := (bind r (fun x => k))
  (at level 61, r at next level, right associativity).

Fixpoint get_col (name : string) (df : DataFrame) : option column :=
  match df with
  | [] => None
  | (k, c) :: rest => if String.eqb k name then Some c else get_col name rest
  end.

(** [df[name]] *)
Definition getitem (name : string) (df : DataFrame) : result column :=
  match get_col name df with
  | Some c => Ok c
  | None => Raise (KeyError name)
  end.

(** [df[name] = c]: an existing column is overwritten in place, a new one
    is appended after the last column. *)
Fixpoint setitem (name : string) (c : column) (df : DataFrame) : DataFrame :=
  match df with
  | [] => [(name, c)]
  | (k, c0) :: rest =>
      if String.eqb k name then (k, c) :: rest else (k, c0) :: setitem name c rest
  end.

(** The float64 values a column takes part in arithmetic with.  A str
    value cannot be multiplied by a float or averaged; a str column without
    a row has no value to fail on and gives the empty series. *)
Definition astype_float (c : column) : result (list float) :=
  match c with
  | IntCol xs => Ok (map float_of_Z xs)
  | FloatCol xs => Ok xs
  | ObjCol [] => Ok []
  | ObjCol (_ :: _) => Raise TypeError
  end.

Definition is_numeric (c : column) : bool :=
  match c with
  | ObjCol _ => false
  | _ => true
  end.

(** A str column with at least one row. *)
Definition has_str_values (c : column) : bool :=
  match c with
  | ObjCol (_ :: _) => true
  | _ => false
  end.

(** [series * w] for a float [w]. *)
Definition series_mul (c : column) (w : float) : result (list float) :=
  xs <- astype_float c ;;
  Ok (map (fun x => (x * w)%float) xs).

(** [a + b] for two float64 series on the same index. *)
Definition series_add (a b : list float) : list float :=
  map (fun p : float * float => (fst p + snd p)%float) (combine a b).

(** [series / d] for a float [d]. *)
Definition series_div (c : column) (d : float) : result (list float) :=
  xs <- astype_float c ;;
  Ok (map (fun x => (x / d)%float) xs).

(** [df.loc[mask, col] = f(df.loc[mask, col])]: the masked rows are
    rewritten, the others are kept. *)
Definition loc_update {A : Type} (mask : list bool) (f : A -> A) (xs : list A) : list A :=
  map (fun bx : bool * A => if fst bx then f (snd bx) else snd bx) (combine mask xs).

(** [df.loc[mask, col] = vals]: the k-th masked row receives the k-th
    element of [vals]. *)
Fixpoint loc_assign {A : Type} (mask : list bool) (xs vals : list A) : list A :=
  match mask, xs with
  | true :: mask', x :: xs' =>
      match vals with
      | v :: vals' => v :: loc_assign mask' xs' vals'
      | [] => x :: loc_assign mask' xs' []
      end
  | false :: mask', x :: xs' => x :: loc_assign mask' xs' vals
  | _, _ => xs
  end.

(* ================================================================== *)
(** ** The random source *)

(** What the generator hands to the six [np.random] calls of
    [simulate_data], by position in the array each call returns. *)
Record RandomState : Type := {
  choice_group : nat -> bool;
    (* np.random.choice(['A', 'B'], ...): [true] picks 'B' *)
  choice_goal : nat -> bool;
    (* np.random.choice([0, 1], p=[0.75, 0.25]): [true] picks 1 *)
  normal_comprehension : nat -> float;
    (* np.random.normal(loc=7, scale=1.5): the value drawn *)
  randint_optout : nat -> Z;
    (* np.random.randint(1, 10): the raw integer the range is cut from *)
  randint_urgency : nat -> Z;
    (* np.random.randint(1, 10): the raw integer the range is cut from *)
  choice_goal_b : nat -> bool
    (* np.random.choice([0, 1], size=mask_b.sum(), p=[0.65, 0.35]) *)
}.

(** A normal draw is a number (numpy never draws NaN). *)
Definition normal_is_number (rs : RandomState) : Prop :=
  forall i, is_nan (normal_comprehension rs i) = false.

(** [np.random.choice([a, b], size=size)] *)
Definition np_choice {A : Type} (a b : A) (pick : nat -> bool) (size : nat) : list A :=
  map (fun i => if pick i then b else a) (seq 0 size).

(** One draw of [np.random.randint(low, high)]: an integer from [low]
    (inclusive) to [high] (exclusive), whatever the generator holds. *)
Definition randint_at (low high : Z) (raw : nat -> Z) (i : nat) : Z :=
  low + raw i mod (high - low).

(** [np.random.randint(low, high, size=size)] *)
Definition np_randint (low high : Z) (raw : nat -> Z) (size : nat) : list Z :=
  map (randint_at low high raw) (seq 0 size).

(** [np.random.normal(loc, scale, size=size)], as drawn. *)
Definition np_normal (draw : nat -> float) (size : nat) : list float :=
  map draw (seq 0 size).

(* ================================================================== *)
(** ** [simulate_data] *)

Definition n_users : nat := 1000.

Definition user_id : list Z := map Z.of_nat (seq 1000 n_users).

Definition test_group (rs : RandomState) : list string :=
  np_choice "A"%string "B"%string (choice_group rs) n_users.

Definition goal_drawn (rs : RandomState) : list Z :=
  np_choice 0 1 (choice_goal rs) n_users.

Definition comprehension_drawn (rs : RandomState) : list float :=
  np_normal (normal_comprehension rs) n_users.

Definition optout_drawn (rs : RandomState) : list Z :=
  np_randint 1 10 (randint_optout rs) n_users.

Definition urgency_drawn (rs : RandomState) : list Z :=
  np_randint 1 10 (randint_urgency rs) n_users.

(** [mask_b = df_ab['Test_Group'] == 'B'] *)
Definition mask_b (rs : RandomState) : list bool :=
  map (fun g => String.eqb g "B") (test_group rs).

(** [mask_b.sum()] *)
Definition mask_sum (mask : list bool) : nat := List.length (filter (fun b => b) mask).

(** Line 35: the goal of the B rows is drawn again. *)
Definition goal_biased (rs : RandomState) : list Z :=
  loc_assign (mask_b rs) (goal_drawn rs)
    (np_choice 0 1 (choice_goal_b rs) (mask_sum (mask_b rs))).

(** Line 36: [df_ab.loc[mask_b, 'User_Comprehension_Score'] -= 1.0] *)
Definition comprehension_biased (rs : RandomState) : list float :=
  loc_update (mask_b rs) (fun x => (x - 1.0)%float) (comprehension_drawn rs).

(** Line 37: the B rows become [clip(1, 8) + 2.0], the other rows keep
    their value.  The column is float64 from here on (a pandas that keeps
    int64 for whole floats holds the same numbers). *)
Definition urgency_biased (rs : RandomState) : list float :=
  map (fun bu : bool * Z => if fst bu
                 then (float_of_Z (clip_int (snd bu) 1 8) + 2.0)%float
                 else float_of_Z (snd bu))
      (combine (mask_b rs) (urgency_drawn rs)).

(** Line 40: [.clip(1, 10).round(1)] *)
Definition comprehension_final (rs : RandomState) : list float :=
  map (fun x => np_round 1 (clip x 1 10)) (comprehension_biased rs).

(** Line 41: [.clip(1, 10)] *)
Definition urgency_final (rs : RandomState) : list float :=
  map (fun x => clip x 1 10) (urgency_biased rs).

Definition simulate_data (rs : RandomState) : DataFrame :=
  [ ("UserID"%string, IntCol user_id);
    ("Test_Group"%string, ObjCol (test_group rs));
    ("Platform_Goal_Achieved"%string, IntCol (goal_biased rs));
    ("User_Comprehension_Score"%string, FloatCol (comprehension_final rs));
    ("OptOut_Difficulty_Score"%string, IntCol (optout_drawn rs));
    ("Urgency_Messaging_Score"%string, FloatCol (urgency_final rs)) ].

(* ================================================================== *)
(** ** [calculate_autonomy_deficit] *)

Definition w_optout : float := 0.4%float.    (* WEIGHTS['OptOut_Difficulty_Score'] *)
Definition w_urgency : float := 0.5%float.   (* WEIGHTS['Urgency_Messaging_Score'] *)

Definition max_possible_score : float := ((10 * 0.4) + (10 * 0.5))%float.

(** The NAD score of one row. *)
Definition nad_score (optout urgency : float) : float :=
  (optout * w_optout + urgency * w_urgency)%float.

Definition calculate_autonomy_deficit (df : DataFrame) : result DataFrame :=
  o <- getitem "OptOut_Difficulty_Score" df ;;
  ow <- series_mul o w_optout ;;
  u <- getitem "Urgency_Messaging_Score" df ;;
  uw <- series_mul u w_urgency ;;
  let df1 := setitem "NAD_Score" (FloatCol (series_add ow uw)) df in
  nad <- getitem "NAD_Score" df1 ;;
  nadn <- series_div nad max_possible_score ;;
  Ok (setitem "NAD_Score_Normalized" (FloatCol nadn) df1).

(* ================================================================== *)
(** ** [generate_visualization]: the figures handed to the chart *)

(** One row of [group_metrics]. *)
Record metrics_row : Type := {
  Test_Group : string;
  Goal_Rate : float;
  Comprehension_Avg : float
}.

(** One row of [tradeoff_data]. *)
Record tradeoff_row : Type := {
  Metric : string;
  Value : float;
  Type_ : string
}.

(** The rows of [xs] whose group label is [k]. *)
Definition group_values {A : Type} (labels : list string) (k : string) (xs : list A) : list A :=
  map snd (filter (fun lx : string * A => String.eqb (fst lx) k) (combine labels xs)).

Fixpoint insert_key (k : string) (l : list string) : list string :=
  match l with
  | [] => [k]
  | h :: t =>
      match String.compare k h with
      | Lt => k :: l
      | Eq => l
      | Gt => h :: insert_key k t
      end
  end.

(** The group labels, each once, in sorted order. *)
Definition group_keys (labels : list string) : list string :=
  fold_right insert_key [] labels.

(** [metrics.loc[metrics['Test_Group'] == k, field].iloc[0]] *)
Definition loc_iloc0 (metrics : list metrics_row) (k : string)
    (field : metrics_row -> float) : result float :=
  match filter (fun r => String.eqb (Test_Group r) k) metrics with
  | r :: _ => Ok (field r)
  | [] => Raise IndexError
  end.

Section Reporter.

(** pandas' [mean] of the float64 values of one group (how it sums is the
    library's business). *)
Variable mean : list float -> float.

(** [df.groupby('Test_Group').agg(Goal_Rate=..., Comprehension_Avg=...)
    .reset_index()] over str labels. *)
Definition group_metrics (labels : list string) (goal compr : list float)
    : list metrics_row :=
  map (fun k => {| Test_Group := k;
                   Goal_Rate := mean (group_values labels k goal);
                   Comprehension_Avg := mean (group_values labels k compr) |})
      (group_keys labels).

Definition tradeoff_of (metrics : list metrics_row) : result (list tradeoff_row) :=
  goal_b <- loc_iloc0 metrics "B" Goal_Rate ;;
  goal_a <- loc_iloc0 metrics "A" Goal_Rate ;;
  let nudge_effect := ((goal_b - goal_a) * 100)%float in
  compr_a <- loc_iloc0 metrics "A" Comprehension_Avg ;;
  compr_b <- loc_iloc0 metrics "B" Comprehension_Avg ;;
  let ethical_cost := (compr_a - compr_b)%float in
  Ok [ {| Metric := "Platform Goal Increase (%)";
          Value := nudge_effect;
          Type_ := "Platform Gain (Desired)" |};
       {| Metric := "User Comprehension Drop (Points)";
          Value := ethical_cost;
          Type_ := "User Cost (Ethical Concern)" |} ].

(** Returns [tradeoff_data], the table the bar chart is drawn from.  With
    numeric group labels the grouping succeeds but no label equals 'B',
    so the first [.iloc[0]] is out of bounds. *)
Definition generate_visualization (df : DataFrame) : result (list tradeoff_row) :=
  tg <- getitem "Test_Group" df ;;
  goal_c <- getitem "Platform_Goal_Achieved" df ;;
  compr_c <- getitem "User_Comprehension_Score" df ;;
  goal <- astype_float goal_c ;;
  compr <- astype_float compr_c ;;
  match tg with
  | ObjCol labels => tradeoff_of (group_metrics labels goal compr)
  | _ => Raise IndexError
  end.

End Reporter.

(** The rows of a column whose label equals the str [k]
    ([df['Test_Group'] == k]); a number never equals a str. *)
Definition group_size (tg : column) (k : string) : nat :=
  match tg with
  | ObjCol labels => List.length (filter (fun l => String.eqb l k) labels)
  | _ => 0%nat
  end.

(** A mean for the examples: the sum from left to right over the count. *)
Definition mean_f64 (xs : list float) : float :=
  (fold_left PrimFloat.add xs 0 / float_of_Z (Z.of_nat (List.length xs)))%float.

(* ================================================================== *)
(** ** Vocabulary of the statements and example tables *)

(** The float64 values the column [name] of [df] gives to arithmetic, if
    the column is there and holds no str value. *)
Definition feature (name : string) (df : DataFrame) : option (list float) :=
  match get_col name df with
  | Some c =>
      match astype_float c with
      | Ok xs => Some xs
      | Raise _ => None
      end
  | None => None
  end.

(** [[name]] when [df] has no such column yet, nothing otherwise. *)
Definition fresh (name : string) (df : DataFrame) : list string :=
  match get_col name df with
  | None => [name]
  | Some _ => []
  end.

(** The four-row table of the end-to-end example. *)
Definition example_table : DataFrame :=
  [ ("UserID"%string, IntCol [1000; 1001; 1002; 1003]);
    ("Test_Group"%string, ObjCol ["A"; "B"; "A"; "B"]%string);
    ("OptOut_Difficulty_Score"%string, IntCol [2; 10; 1; 9]);
    ("Urgency_Messaging_Score"%string, IntCol [3; 10; 1; 9]) ].

(** A table with scores beyond the 1-10 scale. *)
Definition offscale_table : DataFrame :=
  [ ("OptOut_Difficulty_Score"%string, IntCol [20]);
    ("Urgency_Messaging_Score"%string, FloatCol [20.5%float]) ].

(** Tables without one of the feature columns, and one with a str column. *)
Definition no_urgency_table : DataFrame :=
  [ ("OptOut_Difficulty_Score"%string, IntCol [2; 10]) ].

Definition no_optout_table : DataFrame :=
  [ ("Urgency_Messaging_Score"%string, IntCol [3; 10]) ].

Definition str_optout_table : DataFrame :=
  [ ("OptOut_Difficulty_Score"%string, ObjCol ["low"; "high"]%string) ].

(** Both feature columns present, one of them with str values. *)
Definition str_both_table : DataFrame :=
  [ ("OptOut_Difficulty_Score"%string, ObjCol ["low"; "high"]%string);
    ("Urgency_Messaging_Score"%string, IntCol [3; 10]) ].

(** Every column present as a str column without a row. *)
Definition zero_row_table : DataFrame :=
  [ ("Test_Group"%string, ObjCol []);
    ("Platform_Goal_Achieved"%string, ObjCol []);
    ("User_Comprehension_Score"%string, ObjCol []);
    ("OptOut_Difficulty_Score"%string, ObjCol []);
    ("Urgency_Messaging_Score"%string, ObjCol []) ].

(** A source of draws: the groups alternate A, B, A, ...; the feature scores
    run through 1..9; comprehension is drawn as 7.25, 11.5 or 0.25. *)
Definition example_source : RandomState :=
  {| choice_group := Nat.odd;
     choice_goal := fun i => Nat.eqb (i mod 4) 0;
     normal_comprehension :=
       fun i => match (i mod 3)%nat with
                | O => 7.25%float
                | S O => 11.5%float
                | _ => 0.25%float
                end;
     randint_optout := fun i => Z.of_nat i;
     randint_urgency := fun i => 8 - Z.of_nat i;
     choice_goal_b := fun i => Nat.eqb (i mod 3) 0 |}.

(** Group A: 4 rows, 1 goal (rate 0.25); group B: 20 rows, 7 goals (rate
    0.35); comprehension 7.0 in group A and 6.0 in group B. *)
Definition rates_labels : list string := repeat "A"%string 4 ++ repeat "B"%string 20.
Definition rates_goal : list Z := [1; 0; 0; 0] ++ repeat 1 7 ++ repeat 0 13.
Definition rates_compr : list float := repeat 7.0%float 4 ++ repeat 6.0%float 20.

Definition rates_table : DataFrame :=
  [ ("Test_Group"%string, ObjCol rates_labels);
    ("Platform_Goal_Achieved"%string, IntCol rates_goal);
    ("User_Comprehension_Score"%string, FloatCol rates_compr) ].

(** The same table without its group B rows. *)
Definition only_a_table : DataFrame :=
  [ ("Test_Group"%string, ObjCol (repeat "A"%string 4));
    ("Platform_Goal_Achieved"%string, IntCol [1; 0; 0; 0]);
    ("User_Comprehension_Score"%string, FloatCol (repeat 7.0%float 4)) ].

(* ================================================================== *)
(** ** Auxiliary definitions for the binary64 facts *)

(** What [k] right shifts of the significand [M] leave: the quotient, and
    sticky bits that are clear exactly when nothing was shifted out. *)
Definition shr_inv (M k : Z) (mrs : shr_record) : Prop :=
  0 <= k /\ shr_m mrs = M / 2 ^ k /\
  (orb (shr_r mrs) (shr_s mrs) = false <-> M mod 2 ^ k = 0).

Definition SF_one : spec_float := S754_finite false 4503599627370496 (-52).
Definition SF_ten : spec_float := S754_finite false 5629499534213120 (-49).
Definition SF_hundred : spec_float := S754_finite false 7036874417766400 (-46).

(* ================================================================== *)
(** ** Vocabulary of the row-by-row and sign properties *)

(** The sign of a binary64 value: [Lt] negative, [Eq] a zero, [Gt]
    positive; a NaN has none. *)
Definition SFsign (x : spec_float) : option comparison :=
  match x with
  | S754_zero _ => Some Eq
  | S754_infinity s => Some (if s then Lt else Gt)
  | S754_finite s _ _ => Some (if s then Lt else Gt)
  | S754_nan => None
  end.

(** The number of masked rows before row [i]: the position of row [i] among
    the rows a boolean mask selects. *)
Definition rank_in (mask : list bool) (i : nat) : nat := mask_sum (firstn i mask).

(** A score on the 1-10 scale: a whole number from 1 to 10. *)
Definition on_scale (x : float) : Prop := exists k : Z, 1 <= k <= 10 /\ x = float_of_Z k.

(** The order of str values (by code point, the shorter of two prefixes
    first), as [sorted] and [groupby] use it. *)
Definition str_lt (a b : string) : Prop := String.compare a b = Lt.

(** A four-row table with every column the scorer and the reporter read. *)
Definition audit_table : DataFrame :=
  [ ("Test_Group"%string, ObjCol ["A"; "B"; "A"; "B"]%string);
    ("Platform_Goal_Achieved"%string, IntCol [0; 1; 1; 1]);
    ("User_Comprehension_Score"%string, FloatCol [7.5; 6.0; 8.0; 5.5]%float);
    ("OptOut_Difficulty_Score"%string, IntCol [2; 10; 1; 9]);
    ("Urgency_Messaging_Score"%string, FloatCol [3; 10; 1; 9]%float) ].

(* ================================================================== *)
(** * Facts about binary64 rounding

    The primitive operations are specified by the standard library through
    [Prim2SF]; the facts below follow the rounding of [binary_round_aux]. *)

(** Closed facts about binary64 values are settled by evaluation. *)
Ltac by_compute := vm_compute; reflexivity.

(** [rint] rounds halves to the even neighbour and keeps what is whole. *)
Example rint_examples :
  map rint [2.5; 3.5; 0.5; 1.5; -0.3; 1e300; 25.555; -2.5; 99.5; 4.4; infinity]%float
  = [2; 4; 0; 2; -0; 1e300; 26; -2; 100; 4; infinity]%float.
Proof. by_compute. Qed.

Example np_round_examples :
  map (np_round 1) [7.349; 1.25; 1.35; 9.96; 1; 10]%float
  = [7.3; 1.2; 1.4; 10; 1; 10]%float.
Proof. by_compute. Qed.

Example clip_examples :
  map (fun x => clip x 1 10) [0.25; 1; 5.5; 10; 11.5; infinity; neg_infinity]%float
  = [1; 1; 5.5; 10; 10; 10; 1]%float.
Proof. by_compute. Qed.

(** A significand of [d] binary digits lies in [2^(d-1), 2^d). *)
Lemma digits2_pos_bounds (m : positive) :
  2 ^ (Zpos (digits2_pos m) - 1) <= Zpos m < 2 ^ Zpos (digits2_pos m).
Proof.
  induction m as [m IH | m IH | ]; cbn [digits2_pos].
  - rewrite Pos2Z.inj_succ, Z.pow_succ_r by lia.
    replace (Z.succ (Zpos (digits2_pos m)) - 1) with (Z.succ (Zpos (digits2_pos m) - 1)) by lia.
    rewrite Z.pow_succ_r by lia. lia.
  - rewrite Pos2Z.inj_succ, Z.pow_succ_r by lia.
    replace (Z.succ (Zpos (digits2_pos m)) - 1) with (Z.succ (Zpos (digits2_pos m) - 1)) by lia.
    rewrite Z.pow_succ_r by lia. lia.
  - cbn. lia.
Qed.

Lemma digits2_pos_unique (m : positive) (d : Z) :
  2 ^ (d - 1) <= Zpos m < 2 ^ d -> Zpos (digits2_pos m) = d.
Proof.
  intros [Hlo Hhi]. pose proof (digits2_pos_bounds m) as [Blo Bhi].
  assert (0 < d).
  { destruct (Z.ltb_spec 0 d); auto. rewrite Z.pow_neg_r in Hlo by lia.
    assert (2 ^ d <= 2 ^ 0) by (destruct (Z.eq_dec d 0); [subst; lia|rewrite Z.pow_neg_r by lia; cbn; lia]).
    cbn in *. lia. }
  assert (Zpos (digits2_pos m) - 1 < d).
  { apply (Z.pow_lt_mono_r_iff 2); lia. }
  assert (d - 1 < Zpos (digits2_pos m)).
  { apply (Z.pow_lt_mono_r_iff 2); lia. }
  lia.
Qed.

(** An invariant indexed by the number of steps goes through [iter_pos]. *)
Lemma iter_pos_invariant {A} (f : A -> A) (P : Z -> A -> Prop) :
  (forall k x, P k x -> P (k + 1) (f x)) ->
  forall n k x, P k x -> P (k + Zpos n) (iter_pos f n x).
Proof.
  intros Hstep. induction n as [n IH | n IH | ]; intros k x Hx; cbn [iter_pos].
  - replace (k + Zpos n~1) with (((k + 1) + Zpos n) + Zpos n) by lia.
    apply IH, IH, Hstep, Hx.
  - replace (k + Zpos n~0) with ((k + Zpos n) + Zpos n) by lia.
    apply IH, IH, Hx.
  - apply Hstep, Hx.
Qed.

(** One more right shift keeps [shr_inv]. *)
Lemma shr_1_inv M k mrs : 0 <= M -> shr_inv M k mrs -> shr_inv M (k + 1) (shr_1 mrs).
Proof.
  intros HM (Hk & Hm & Hfl). destruct mrs as [m r s]. cbn [shr_m shr_r shr_s] in *.
  assert (Hp : 0 < 2 ^ k) by (apply Z.pow_pos_nonneg; lia).
  assert (Hm0 : 0 <= m) by (subst m; apply Z.div_pos; lia).
  assert (Hdiv : M / 2 ^ (k + 1) = m / 2).
  { rewrite Z.pow_add_r, Z.pow_1_r by lia. rewrite <- Z.div_div by lia. now rewrite Hm. }
  assert (Hmod : M mod 2 ^ (k + 1) = M mod 2 ^ k + 2 ^ k * (m mod 2)).
  { rewrite Z.pow_add_r, Z.pow_1_r by lia. rewrite Z.rem_mul_r by lia. now rewrite Hm. }
  assert (Hb : 0 <= M mod 2 ^ k) by (apply Z.mod_pos_bound; lia).
  unfold shr_inv. rewrite Hdiv, Hmod. split; [lia|].
  destruct m as [ | [p | p | ] | p]; try lia; cbn [shr_1 shr_m shr_r shr_s];
    (split; [ try (rewrite Pos2Z.inj_xI); try (rewrite Pos2Z.inj_xO); lia | ]).
  - change (0 mod 2) with 0. destruct r, s; cbn in *; intuition (try discriminate; try lia).
  - split; [discriminate|]. intros E.
    assert (Zpos p~1 mod 2 = 1) by (rewrite Pos2Z.inj_xI; lia). nia.
  - replace (Zpos p~0 mod 2) with 0 by (rewrite Pos2Z.inj_xO; lia).
    destruct r, s; cbn in *; intuition (try discriminate; try lia).
  - split; [discriminate|]. intros E.
    change (1 mod 2) with 1 in E. lia.
Qed.

Lemma iter_shr_1 (M : Z) (n : positive) :
  0 <= M -> shr_inv M (Zpos n) (iter_pos shr_1 n (Build_shr_record M false false)).
Proof.
  intros HM.
  apply (iter_pos_invariant shr_1 (shr_inv M) (fun k x => shr_1_inv M k x HM) n 0).
  unfold shr_inv; cbn. rewrite Z.div_1_r, Z.mod_1_r. intuition lia.
Qed.

(** Rounding to nearest moves the truncated significand up by at most one,
    and not at all when nothing was shifted out. *)
Lemma round_nearest_even_loc (mrs : shr_record) :
  let rho := round_nearest_even (shr_m mrs) (loc_of_shr_record mrs) in
  shr_m mrs <= rho <= shr_m mrs + 1 /\
  (orb (shr_r mrs) (shr_s mrs) = false -> rho = shr_m mrs).
Proof.
  destruct mrs as [m [|] [|]]; cbn; try destruct (Z.even m); split; try lia; try discriminate; auto.
Qed.

Lemma fexp_normal (x : Z) : -1074 <= x - 53 -> fexp prec emax x = x - 53.
Proof. intros H. unfold fexp, SpecFloat.emin, prec, emax. lia. Qed.

Lemma shr_fexp_canonical (rho e : Z) :
  2 ^ 52 <= rho < 2 ^ 53 -> -1074 <= e ->
  shr_fexp prec emax rho e loc_Exact = (Build_shr_record rho false false, e).
Proof.
  intros Hr He. destruct rho as [ | p | p]; try lia.
  unfold shr_fexp. cbn [Zdigits2 shr_record_of_loc].
  rewrite (digits2_pos_unique p 53) by (change (53 - 1) with 52; lia).
  rewrite fexp_normal by lia.
  replace (53 + e - 53 - e) with 0 by lia. reflexivity.
Qed.

(** Rounding an exact product [M * 2^E] of [53 + n] digits to binary64: the
    result is [rho * 2^(E + n)] with [rho] the quotient [M / 2^n] or its
    successor (the quotient itself when the division is exact); when [rho]
    reaches [2^53] it is renormalised to [2^52] one exponent higher. *)
Lemma binary_round_aux_exact (sx : bool) (M : positive) (E n : Z) :
  0 < n -> Zpos (digits2_pos M) = 53 + n -> -1074 <= E + n -> E + n < 971 ->
  exists (rho : Z) (m' : positive) (e' : Z),
    binary_round_aux prec emax sx (Zpos M) E loc_Exact = S754_finite sx m' e' /\
    Zpos M / 2 ^ n <= rho <= Zpos M / 2 ^ n + 1 /\
    (Zpos M mod 2 ^ n = 0 -> rho = Zpos M / 2 ^ n) /\
    ((Zpos m' = rho /\ e' = E + n /\ rho < 2 ^ 53) \/
     (rho = 2 ^ 53 /\ Zpos m' = 2 ^ 52 /\ e' = E + n + 1)).
Proof.
  intros Hn Hd Hlo Hhi.
  pose proof (digits2_pos_bounds M) as [Blo Bhi]. rewrite Hd in Blo, Bhi.
  assert (Hp : 0 < 2 ^ n) by (apply Z.pow_pos_nonneg; lia).
  replace (53 + n - 1) with (52 + n) in Blo by lia.
  rewrite Z.pow_add_r in Blo, Bhi by lia.
  assert (Hq : 2 ^ 52 <= Zpos M / 2 ^ n < 2 ^ 53).
  { split; [apply Z.div_le_lower_bound | apply Z.div_lt_upper_bound]; lia. }
  unfold binary_round_aux.
  assert (Hshr : shr_fexp prec emax (Zpos M) E loc_Exact =
          (iter_pos shr_1 (Z.to_pos n) (Build_shr_record (Zpos M) false false), E + n)).
  { unfold shr_fexp. cbn [Zdigits2 shr_record_of_loc]. rewrite Hd.
    rewrite fexp_normal by lia. replace (53 + n + E - 53 - E) with n by lia.
    destruct n; try lia. reflexivity. }
  rewrite Hshr.
  pose proof (iter_shr_1 (Zpos M) (Z.to_pos n) ltac:(lia)) as (_ & Im & Ifl).
  rewrite Z2Pos.id in Im, Ifl by lia.
  set (mrs := iter_pos shr_1 (Z.to_pos n) _) in *.
  pose proof (round_nearest_even_loc mrs) as [Rb Rex]. cbv zeta in Rb, Rex.
  set (rho := round_nearest_even (shr_m mrs) (loc_of_shr_record mrs)) in *.
  rewrite Im in Rb, Rex.
  destruct (Z.eq_dec rho (2 ^ 53)) as [Ec | Nc].
  - rewrite Ec.
    assert (Hs : shr_fexp prec emax (2 ^ 53) (E + n) loc_Exact =
                 (Build_shr_record (2 ^ 52) false false, E + n + 1)).
    { unfold shr_fexp. change (Zdigits2 (2 ^ 53)) with 54.
      rewrite fexp_normal by lia. replace (54 + (E + n) - 53 - (E + n)) with 1 by lia.
      reflexivity. }
    rewrite Hs. cbn [shr_m]. change (2 ^ 52) with (Zpos 4503599627370496).
    replace (E + n + 1 <=? emax - prec) with true
      by (symmetry; apply Z.leb_le; unfold emax, prec; lia).
    exists rho, 4503599627370496%positive, (E + n + 1).
    split; [reflexivity|]. split; [lia|]. split; [tauto|]. right. rewrite Ec. auto.
  - rewrite shr_fexp_canonical by lia. cbn [shr_m].
    destruct rho as [ | p | p] eqn:Er; try lia.
    replace (E + n <=? emax - prec) with true
      by (symmetry; apply Z.leb_le; unfold emax, prec; lia).
    exists (Zpos p), p, (E + n).
    split; [reflexivity|]. split; [lia|]. split; [tauto|]. left. lia.
Qed.

(** Order of two positive finite numbers with 53-digit significands. *)
Lemma SFleb_pos_finite (m1 m2 : positive) (e1 e2 : Z) :
  SFleb (S754_finite false m1 e1) (S754_finite false m2 e2) = true <->
  e1 < e2 \/ (e1 = e2 /\ Zpos m1 <= Zpos m2).
Proof.
  unfold SFleb, SFcompare.
  destruct (Z.compare_spec e1 e2) as [He | He | He].
  - change (Pos.compare_cont Eq m1 m2) with (Pos.compare m1 m2).
    destruct (Pos.compare_spec m1 m2); split; intros; try discriminate; try lia; auto.
  - split; auto.
  - split; [discriminate | lia].
Qed.

Lemma Prim2SF_one : Prim2SF 1%float = SF_one. Proof. by_compute. Qed.
Lemma Prim2SF_ten : Prim2SF 10%float = SF_ten. Proof. by_compute. Qed.
Lemma Prim2SF_hundred : Prim2SF 100%float = SF_hundred. Proof. by_compute. Qed.

(** A binary64 above the subnormal range has a 53-digit significand. *)
Lemma canonical_53 (m : positive) (e : Z) :
  valid_binary (S754_finite false m e) = true -> -1074 < e ->
  2 ^ 52 <= Zpos m < 2 ^ 53.
Proof.
  cbn [SpecFloat.valid_binary]. unfold bounded, canonical_mantissa. intros H He.
  apply andb_prop in H as [H _]. apply Z.eqb_eq in H.
  unfold fexp, SpecFloat.emin, prec, emax in H.
  assert (Hd : Zpos (digits2_pos m) = 53) by lia.
  pose proof (digits2_pos_bounds m) as B. rewrite Hd in B. exact B.
Qed.

(** A float between two positive normal bounds is positive, finite and
    normal, and its exponent and significand are bracketed by theirs. *)
Lemma decode_between (c : float) (mlo mhi : positive) (elo ehi : Z) :
  SFleb (S754_finite false mlo elo) (Prim2SF c) = true ->
  SFleb (Prim2SF c) (S754_finite false mhi ehi) = true ->
  -1074 < elo ->
  exists m e, Prim2SF c = S754_finite false m e /\
    2 ^ 52 <= Zpos m < 2 ^ 53 /\
    (elo < e \/ (elo = e /\ Zpos mlo <= Zpos m)) /\
    (e < ehi \/ (e = ehi /\ Zpos m <= Zpos mhi)).
Proof.
  intros Hlo Hhi Helo. pose proof (Prim2SF_valid c) as Hv.
  destruct (Prim2SF c) as [s | s | | s m e]; try discriminate.
  - destruct s; discriminate.
  - destruct s; [discriminate|].
    apply SFleb_pos_finite in Hlo. apply SFleb_pos_finite in Hhi.
    exists m, e. split; [reflexivity|]. split; [|split; assumption].
    apply (canonical_53 m e Hv). lia.
Qed.

(** The powers of two the proofs below compare significands with. *)
Ltac pow2_constants :=
  change (2 ^ 52) with 4503599627370496 in *;
  change (2 ^ 53) with 9007199254740992 in *;
  change (2 ^ 104) with 20282409603651670423947251286016 in *;
  change (2 ^ 105) with 40564819207303340847894502572032 in *;
  change (2 ^ 106) with 81129638414606681695789005144064 in *.

(** Step 1 of [np_round 1]: the product by 10 of a value in [1,10] is in
    [10,100], whatever the rounding of the product. *)
Lemma mul10_range (c : float) :
  (1 <=? c)%float = true -> (c <=? 10)%float = true ->
  (10 <=? c * 10)%float = true /\ (c * 10 <=? 100)%float = true.
Proof.
  rewrite !leb_spec, mul_spec, Prim2SF_one, Prim2SF_ten, Prim2SF_hundred.
  intros Hlo Hhi.
  destruct (decode_between c _ _ _ _ Hlo Hhi eq_refl) as (m & e & Ec & Hm & Hge & Hle).
  rewrite Ec. unfold SF64mul, SFmul, SF_ten, SF_hundred. cbn [xorb].
  set (M := (m * 5629499534213120)%positive).
  assert (HM : Zpos M = Zpos m * 5629499534213120) by (unfold M; apply Pos2Z.inj_mul).
  destruct (Z.ltb_spec (Zpos M) (2 ^ 105)) as [Hd | Hd].
  - destruct (binary_round_aux_exact false M (e + -49) 52)
      as (rho & m' & e' & Eq & Hr & Hex & Hc); try lia.
    { apply digits2_pos_unique. change (53 + 52 - 1) with 104. change (53 + 52) with 105.
      pow2_constants. lia. }
    rewrite Eq, !SFleb_pos_finite. pow2_constants.
    destruct (Z.eq_dec (Zpos M mod 4503599627370496) 0) as [Hz | Hz];
      [specialize (Hex Hz) | clear Hex]; lia.
  - destruct (binary_round_aux_exact false M (e + -49) 53)
      as (rho & m' & e' & Eq & Hr & Hex & Hc); try lia.
    { apply digits2_pos_unique. change (53 + 53 - 1) with 105. change (53 + 53) with 106.
      pow2_constants. lia. }
    rewrite Eq, !SFleb_pos_finite. pow2_constants.
    destruct (Z.eq_dec (Zpos M mod 9007199254740992) 0) as [Hz | Hz];
      [specialize (Hex Hz) | clear Hex]; lia.
Qed.

Lemma round_half_even_bounds (m sh : Z) :
  let q := m / 2 ^ sh in
  q <= round_half_even m sh <= q + 1 /\ (m mod 2 ^ sh = 0 -> 0 < sh -> round_half_even m sh = q).
Proof.
  unfold round_half_even. cbv zeta.
  destruct (Z.ltb_spec (m mod 2 ^ sh) (2 ^ (sh - 1))) as [H1 | H1].
  - split; [lia | auto].
  - split.
    + destruct (2 ^ (sh - 1) <? m mod 2 ^ sh), (Z.even (m / 2 ^ sh)); lia.
    + intros Hz Hs. rewrite Hz in H1.
      assert (0 < 2 ^ (sh - 1)) by (apply Z.pow_pos_nonneg; lia). lia.
Qed.

(** Step 2: [rint] of a value in [10,100] is one of the integers 10..100. *)
Lemma rint_range (r : float) :
  (10 <=? r)%float = true -> (r <=? 100)%float = true ->
  exists k, 10 <= k <= 100 /\ rint r = float_of_Z k.
Proof.
  rewrite !leb_spec, Prim2SF_ten, Prim2SF_hundred. intros Hlo Hhi.
  destruct (decode_between r _ _ _ _ Hlo Hhi eq_refl) as (m & e & Ec & Hm & Hge & Hle).
  unfold rint. rewrite Ec.
  replace (e <? 0) with true by (symmetry; apply Z.ltb_lt; lia).
  exists (round_half_even (Zpos m) (- e)). split; [|reflexivity].
  pose proof (round_half_even_bounds (Zpos m) (- e)) as [Hb Hex]. cbv zeta in Hb.
  assert (Hpos : 0 < - e) by lia. specialize (fun H => Hex H Hpos).
  pow2_constants.
  assert (He : e = -49 \/ e = -48 \/ e = -47 \/ e = -46) by lia.
  destruct He as [-> | [-> | [-> | ->]]];
    [ change (2 ^ (- -49)) with 562949953421312 in *
    | change (2 ^ (- -48)) with 281474976710656 in *
    | change (2 ^ (- -47)) with 140737488355328 in *
    | change (2 ^ (- -46)) with 70368744177664 in * ];
    match type of Hex with (?a mod ?b = 0 -> _) =>
      destruct (Z.eq_dec (a mod b) 0) as [Hz | Hz]; [specialize (Hex Hz) | clear Hex]; lia
    end.
Qed.

(** Step 3: each of the integers 10..100, divided by 10, is in [1,10]. *)
Lemma div10_range (k : Z) :
  10 <= k <= 100 ->
  (1 <=? float_of_Z k / 10)%float = true /\ (float_of_Z k / 10 <=? 10)%float = true.
Proof.
  intros Hk.
  assert (Hall : forallb (fun n => (1 <=? float_of_Z (Z.of_nat n) / 10)%float &&
                                   (float_of_Z (Z.of_nat n) / 10 <=? 10)%float) (seq 10 91) = true)
    by (by_compute).
  rewrite forallb_forall in Hall. specialize (Hall (Z.to_nat k)).
  rewrite Z2Nat.id in Hall by lia. apply andb_prop, Hall, in_seq. lia.
Qed.

(** Rounding to one decimal keeps a value of [1,10] in [1,10]. *)
Lemma np_round_1_range (c : float) :
  (1 <=? c)%float = true -> (c <=? 10)%float = true ->
  (1 <=? np_round 1 c)%float = true /\ (np_round 1 c <=? 10)%float = true.
Proof.
  intros Hlo Hhi. destruct (mul10_range c Hlo Hhi) as [H1 H2].
  destruct (rint_range _ H1 H2) as (k & Hk & Ek).
  unfold np_round. change (float_of_Z (10 ^ Z.of_nat 1)) with 10%float.
  cbv zeta. rewrite Ek. apply div10_range, Hk.
Qed.

Lemma SFeqb_refl (s : spec_float) : s <> S754_nan -> SFeqb s s = true.
Proof.
  intros Hn. unfold SFeqb, SFcompare.
  destruct s as [[|] | [|] | | [|] m e]; try reflexivity; try congruence;
    rewrite Z.compare_refl; change (Pos.compare_cont Eq m m) with (Pos.compare m m);
    rewrite Pos.compare_refl; reflexivity.
Qed.

(** [is_nan] recognises exactly the NaN of the specification. *)
Lemma is_nan_spec (x : float) : is_nan x = true <-> Prim2SF x = S754_nan.
Proof.
  unfold is_nan. rewrite eqb_spec. split.
  - intros H. destruct (Prim2SF x) eqn:E; try reflexivity;
      rewrite SFeqb_refl in H by discriminate; discriminate.
  - intros ->. reflexivity.
Qed.

Lemma is_nan_false (x : float) : is_nan x = false <-> Prim2SF x <> S754_nan.
Proof.
  rewrite <- is_nan_spec. destruct (is_nan x); split; congruence.
Qed.

Lemma shr_1_nonneg (mrs : shr_record) : 0 <= shr_m mrs -> 0 <= shr_m (shr_1 mrs).
Proof.
  destruct mrs as [[ | [p | p | ] | p] r s]; cbn; lia.
Qed.

Lemma shr_fexp_nonneg (m e : Z) (l : location) :
  0 <= m -> 0 <= shr_m (fst (shr_fexp prec emax m e l)).
Proof.
  intros Hm. unfold shr_fexp, shr.
  assert (H0 : shr_m (shr_record_of_loc m l) = m) by (destruct l as [ | [ | | ]]; reflexivity).
  destruct (fexp prec emax (Zdigits2 m + e) - e) as [ | p | p]; cbn [fst]; try lia.
  apply (iter_pos_invariant shr_1 (fun _ x => 0 <= shr_m x)
           (fun _ x => shr_1_nonneg x) p 0). lia.
Qed.

(** Rounding never produces a NaN. *)
Lemma binary_round_aux_not_nan (sx : bool) (mx ex : Z) (lx : location) :
  0 <= mx -> binary_round_aux prec emax sx mx ex lx <> S754_nan.
Proof.
  intros Hm. unfold binary_round_aux.
  pose proof (shr_fexp_nonneg mx ex lx Hm) as H1.
  destruct (shr_fexp prec emax mx ex lx) as [mrs' e']. cbn [fst] in H1.
  assert (H2 : 0 <= round_nearest_even (shr_m mrs') (loc_of_shr_record mrs')).
  { pose proof (round_nearest_even_loc mrs') as [Hb _]. cbv zeta in Hb. lia. }
  pose proof (shr_fexp_nonneg _ e' loc_Exact H2) as H3.
  destruct (shr_fexp prec emax _ e' loc_Exact) as [mrs'' e'']. cbn [fst] in H3.
  destruct (shr_m mrs'') as [ | p | p]; try lia; try discriminate.
  destruct (e'' <=? emax - prec); discriminate.
Qed.

Lemma binary_normalize_not_nan (m e : Z) (sz : bool) :
  binary_normalize prec emax m e sz <> S754_nan.
Proof.
  destruct m as [ | p | p]; cbn [binary_normalize]; try discriminate;
    unfold binary_round; destruct (shl_align _ _ _) as [mz ez];
    apply binary_round_aux_not_nan; lia.
Qed.

(** Subtracting 1.0 from a number gives a number. *)
Lemma sub_one_not_nan (x : float) : is_nan x = false -> is_nan (x - 1) = false.
Proof.
  rewrite !is_nan_false, sub_spec, Prim2SF_one. intros Hx.
  unfold SF64sub, SFsub, SF_one.
  destruct (Prim2SF x) as [s | s | | s m e]; try congruence; try discriminate.
  apply binary_normalize_not_nan.
Qed.

Lemma ltb_leb (a b : float) : (a <? b)%float = true -> (a <=? b)%float = true.
Proof.
  rewrite ltb_spec, leb_spec. unfold SFltb, SFleb.
  destruct (SFcompare (Prim2SF a) (Prim2SF b)) as [[ | | ] | ]; congruence.
Qed.

(** Clamping a number to [1,10] gives a value of [1,10]. *)
Lemma clip_1_10_range (x : float) :
  is_nan x = false -> between 1 10 (clip x 1 10) = true.
Proof.
  intros Hx. unfold between, clip, np_maximum. rewrite Hx.
  destruct (1 <? x)%float eqn:H1; unfold np_minimum.
  - rewrite Hx. destruct (x <? 10)%float eqn:H2.
    + now rewrite (ltb_leb _ _ H1), (ltb_leb _ _ H2).
    + reflexivity.
  - reflexivity.
Qed.

(* ================================================================== *)
(** * Facts about tables *)

Lemma get_col_setitem_same (k : string) (c : column) (df : DataFrame) :
  get_col k (setitem k c df) = Some c.
Proof.
  induction df as [ | [k0 c0] rest IH]; cbn.
  - now rewrite String.eqb_refl.
  - destruct (String.eqb k0 k) eqn:E; cbn; rewrite E; auto.
Qed.

Lemma get_col_setitem_other (k k' : string) (c : column) (df : DataFrame) :
  k' <> k -> get_col k' (setitem k c df) = get_col k' df.
Proof.
  intros Hne. induction df as [ | [k0 c0] rest IH]; cbn.
  - apply String.eqb_neq in Hne. now rewrite String.eqb_sym, Hne.
  - destruct (String.eqb k0 k) eqn:E; cbn.
    + apply String.eqb_eq in E. subst k0.
      replace (String.eqb k k') with false; [reflexivity|].
      symmetry. apply String.eqb_neq. congruence.
    + now rewrite IH.
Qed.

(** Writing a column over itself changes nothing. *)
Lemma setitem_same (k : string) (c : column) (df : DataFrame) :
  get_col k df = Some c -> setitem k c df = df.
Proof.
  induction df as [ | [k0 c0] rest IH]; cbn; [discriminate|].
  destruct (String.eqb k0 k); intros H.
  - congruence.
  - now rewrite IH.
Qed.

Lemma columns_setitem_new (k : string) (c : column) (df : DataFrame) :
  get_col k df = None -> columns (setitem k c df) = columns df ++ [k].
Proof.
  unfold columns. induction df as [ | [k0 c0] rest IH]; cbn; [reflexivity|].
  destruct (String.eqb k0 k); [discriminate|]. intros H. cbn. now rewrite IH.
Qed.

Lemma columns_setitem_old (k : string) (c c0 : column) (df : DataFrame) :
  get_col k df = Some c0 -> columns (setitem k c df) = columns df.
Proof.
  unfold columns. induction df as [ | [k1 c1] rest IH]; cbn; [discriminate|].
  destruct (String.eqb k1 k); [reflexivity|]. intros H. cbn. now rewrite IH.
Qed.

Lemma frame_rows_setitem (k : string) (c : column) (df : DataFrame) (n : nat) :
  frame_rows df n -> col_len c = n -> frame_rows (setitem k c df) n.
Proof.
  unfold frame_rows. intros Hdf Hc.
  induction df as [ | [k0 c0] rest IH]; cbn.
  - constructor; auto.
  - inversion Hdf as [ | ? ? Hh Ht]. destruct (String.eqb k0 k); constructor; auto.
Qed.

Lemma frame_rows_get (k : string) (c : column) (df : DataFrame) (n : nat) :
  frame_rows df n -> get_col k df = Some c -> col_len c = n.
Proof.
  unfold frame_rows. induction df as [ | [k0 c0] rest IH]; cbn; [discriminate|].
  intros Hdf. inversion Hdf as [ | ? ? Hh Ht]. cbn in Hh.
  destruct (String.eqb k0 k); intros Hg.
  - injection Hg as <-. exact Hh.
  - auto.
Qed.

Lemma astype_float_length (c : column) (xs : list float) :
  astype_float c = Ok xs -> List.length xs = col_len c.
Proof.
  destruct c as [l | l | [ | x l]]; cbn; intros H; try discriminate; injection H as <-;
    [apply length_map | reflexivity | reflexivity].
Qed.

(** Arithmetic on a column fails exactly on str values, with a TypeError. *)
Lemma astype_float_cases (c : column) :
  (has_str_values c = true /\ astype_float c = Raise TypeError) \/
  (has_str_values c = false /\ exists xs, astype_float c = Ok xs).
Proof. destruct c as [l | l | [ | x l]]; cbn; eauto. Qed.

Lemma has_str_values_spec (c : column) :
  has_str_values c = true <-> is_numeric c = false /\ col_len c <> 0%nat.
Proof.
  destruct c as [l | l | [ | x l]]; cbn; split; intros H;
    try discriminate; try (destruct H; congruence); auto.
Qed.

Lemma series_add_length (a b : list float) :
  List.length a = List.length b -> List.length (series_add a b) = List.length a.
Proof.
  intros H. unfold series_add. rewrite length_map, length_combine. lia.
Qed.

Lemma series_add_nth (a b : list float) (i : nat) (x y : float) :
  nth_error a i = Some x -> nth_error b i = Some y ->
  nth_error (series_add a b) i = Some (x + y)%float.
Proof.
  revert b i. unfold series_add.
  induction a as [ | a0 a IH]; intros [ | b0 b] [ | i]; cbn; try discriminate.
  - intros [= ->] [= ->]. reflexivity.
  - apply IH.
Qed.

(* ================================================================== *)
(** * The Deficit Scorer *)

Lemma feature_inv (name : string) (df : DataFrame) (xs : list float) :
  feature name df = Some xs ->
  exists c, get_col name df = Some c /\ astype_float c = Ok xs.
Proof.
  unfold feature. destruct (get_col name df) as [c | ]; [|discriminate].
  destruct (astype_float c) as [ys | e] eqn:E; [|discriminate].
  intros [= ->]. eauto.
Qed.

Lemma feature_length (name : string) (df : DataFrame) (xs : list float) (n : nat) :
  frame_rows df n -> feature name df = Some xs -> List.length xs = n.
Proof.
  intros Hdf Hf. destruct (feature_inv _ _ _ Hf) as (c & Hc & Ha).
  rewrite (astype_float_length _ _ Ha). eapply frame_rows_get; eauto.
Qed.

Lemma feature_setitem_other (k name : string) (c : column) (df : DataFrame) :
  name <> k -> feature name (setitem k c df) = feature name df.
Proof.
  intros Hne. unfold feature. now rewrite get_col_setitem_other.
Qed.

(** What the scorer returns on a table with both feature columns. *)
Lemma calculate_autonomy_deficit_ok (df : DataFrame) (os us : list float) :
  feature "OptOut_Difficulty_Score" df = Some os ->
  feature "Urgency_Messaging_Score" df = Some us ->
  let nad := series_add (map (fun x => (x * w_optout)%float) os)
                        (map (fun x => (x * w_urgency)%float) us) in
  calculate_autonomy_deficit df =
  Ok (setitem "NAD_Score_Normalized"
        (FloatCol (map (fun x => (x / max_possible_score)%float) nad))
        (setitem "NAD_Score" (FloatCol nad) df)).
Proof.
  intros Ho Hu nad.
  destruct (feature_inv _ _ _ Ho) as (o & Hgo & Hao).
  destruct (feature_inv _ _ _ Hu) as (u & Hgu & Hau).
  unfold calculate_autonomy_deficit, getitem, series_mul.
  rewrite Hgo. cbn [bind]. rewrite Hao. cbn [bind].
  rewrite Hgu. cbn [bind]. rewrite Hau. cbn [bind].
  rewrite get_col_setitem_same. reflexivity.
Qed.

Lemma nad_column_nth (os us : list float) (i : nat) (o u : float) :
  nth_error os i = Some o -> nth_error us i = Some u ->
  nth_error (series_add (map (fun x => (x * w_optout)%float) os)
                        (map (fun x => (x * w_urgency)%float) us)) i
  = Some (nad_score o u).
Proof.
  intros Ho Hu. unfold nad_score. apply series_add_nth.
  - rewrite nth_error_map, Ho. reflexivity.
  - rewrite nth_error_map, Hu. reflexivity.
Qed.

Lemma nad_column_length (os us : list float) (n : nat) :
  List.length os = n -> List.length us = n ->
  List.length (series_add (map (fun x => (x * w_optout)%float) os)
                          (map (fun x => (x * w_urgency)%float) us)) = n.
Proof.
  intros Ho Hu. rewrite series_add_length; rewrite !length_map; congruence.
Qed.

(** Multiplication of binary64 values is commutative. *)
Lemma float_mul_comm (x y : float) : (x * y)%float = (y * x)%float.
Proof.
  apply Prim2SF_inj. rewrite !mul_spec. unfold SF64mul, SFmul.
  destruct (Prim2SF x) as [sx | sx | | sx mx ex], (Prim2SF y) as [sy | sy | | sy my ey];
    try reflexivity; try (now rewrite xorb_comm).
  now rewrite xorb_comm, Pos.mul_comm, Z.add_comm.
Qed.

Lemma max_possible_score_9 : max_possible_score = 9%float.
Proof. by_compute. Qed.

(** C1. On every table with the two feature columns the scorer succeeds and
    sets, in every row, NAD_Score = 0.4 * OptOut_Difficulty_Score + 0.5 *
    Urgency_Messaging_Score and NAD_Score_Normalized = NAD_Score / 9.0.  No
    upper bound is enforced (scores 20 and 20.5 give 18.25, normalized above
    2).  On the four-row example the rows (2,3) and (10,10) get NAD_Score
    2.3 and 9.0, normalized 0.25555555555555554 (0.2556 to four decimals)
    and 1.0. *)
Theorem nad_score_formula :
  (forall (df : DataFrame) (n : nat) (os us : list float),
      frame_rows df n ->
      feature "OptOut_Difficulty_Score" df = Some os ->
      feature "Urgency_Messaging_Score" df = Some us ->
      exists df' nad nadn,
        calculate_autonomy_deficit df = Ok df' /\
        get_col "NAD_Score" df' = Some (FloatCol nad) /\
        get_col "NAD_Score_Normalized" df' = Some (FloatCol nadn) /\
        List.length nad = n /\ List.length nadn = n /\
        forall i, (i < n)%nat ->
          exists o u,
            nth_error os i = Some o /\ nth_error us i = Some u /\
            nth_error nad i = Some (0.4 * o + 0.5 * u)%float /\
            nth_error nadn i = Some ((0.4 * o + 0.5 * u) / 9.0)%float) /\
  (exists df',
      calculate_autonomy_deficit example_table = Ok df' /\
      get_col "NAD_Score" df' = Some (FloatCol [2.3; 9.0; 0.9; 8.1]%float) /\
      get_col "NAD_Score_Normalized" df'
        = Some (FloatCol [0.25555555555555554; 1.0; 0.1; 0.8999999999999999]%float) /\
      np_round 4 0.25555555555555554 = 0.2556%float) /\
  (exists df',
      calculate_autonomy_deficit offscale_table = Ok df' /\
      get_col "NAD_Score" df' = Some (FloatCol [18.25]%float) /\
      get_col "NAD_Score_Normalized" df' = Some (FloatCol [2.0277777777777777]%float)).
Proof.
  split; [|split].
  - intros df n os us Hdf Ho Hu.
    pose proof (feature_length _ _ _ _ Hdf Ho) as Lo.
    pose proof (feature_length _ _ _ _ Hdf Hu) as Lu.
    pose proof (calculate_autonomy_deficit_ok df os us Ho Hu) as Hok. cbv zeta in Hok.
    set (nad := series_add _ _) in Hok.
    exists (setitem "NAD_Score_Normalized"
              (FloatCol (map (fun x => (x / max_possible_score)%float) nad))
              (setitem "NAD_Score" (FloatCol nad) df)),
      nad, (map (fun x => (x / max_possible_score)%float) nad).
    split; [exact Hok|].
    split; [rewrite get_col_setitem_other by discriminate; apply get_col_setitem_same|].
    split; [apply get_col_setitem_same|].
    assert (Ln : List.length nad = n) by (apply nad_column_length; assumption).
    split; [exact Ln|]. split; [rewrite length_map; exact Ln|].
    intros i Hi.
    destruct (nth_error os i) as [o | ] eqn:Eo;
      [|apply nth_error_None in Eo; lia].
    destruct (nth_error us i) as [u | ] eqn:Eu;
      [|apply nth_error_None in Eu; lia].
    exists o, u. split; [reflexivity|]. split; [reflexivity|].
    pose proof (nad_column_nth os us i o u Eo Eu) as Hn. fold nad in Hn.
    rewrite (float_mul_comm 0.4 o), (float_mul_comm 0.5 u).
    split; [exact Hn|].
    rewrite nth_error_map, Hn, max_possible_score_9. reflexivity.
  - eexists. split; [by_compute|].
    repeat split; by_compute.
  - eexists. split; [by_compute|].
    repeat split; by_compute.
Qed.

Lemma nad_score_formula_witness :
  exists df' nad nadn,
    calculate_autonomy_deficit example_table = Ok df' /\
    get_col "NAD_Score" df' = Some (FloatCol nad) /\
    get_col "NAD_Score_Normalized" df' = Some (FloatCol nadn) /\
    List.length nad = 4%nat /\ List.length nadn = 4%nat /\
    forall i, (i < 4)%nat ->
      exists o u,
        nth_error [2; 10; 1; 9]%float i = Some o /\
        nth_error [3; 10; 1; 9]%float i = Some u /\
        nth_error nad i = Some (0.4 * o + 0.5 * u)%float /\
        nth_error nadn i = Some ((0.4 * o + 0.5 * u) / 9.0)%float.
Proof.
  apply (proj1 nad_score_formula example_table 4%nat).
  - unfold frame_rows, example_table. repeat constructor.
  - vm_compute. reflexivity.
  - vm_compute. reflexivity.
Defined.

Lemma columns_setitem (k : string) (c : column) (df : DataFrame) :
  columns (setitem k c df) = columns df ++ fresh k df.
Proof.
  unfold fresh. destruct (get_col k df) as [c0 | ] eqn:E.
  - rewrite (columns_setitem_old k c c0 df E). now rewrite app_nil_r.
  - now apply columns_setitem_new.
Qed.

Section ScoredTable.

(** A table with the two feature columns, and their float64 values. *)
Variables (df : DataFrame) (os us : list float).
Hypothesis has_optout : feature "OptOut_Difficulty_Score" df = Some os.
Hypothesis has_urgency : feature "Urgency_Messaging_Score" df = Some us.

Local Abbreviation nad :=
  (series_add (map (fun x => (x * w_optout)%float) os)
              (map (fun x => (x * w_urgency)%float) us)).
Local Abbreviation nadn := (map (fun x => (x / max_possible_score)%float) nad).
Local Abbreviation scored :=
  (setitem "NAD_Score_Normalized" (FloatCol nadn) (setitem "NAD_Score" (FloatCol nad) df)).

(** C7. On a table with the two feature columns the scorer returns the same
    table with NAD_Score and NAD_Score_Normalized set: every column with
    another name is the column it was, the row count is kept, and the column
    labels are the old ones followed by those of the two that are new (both,
    in this order, when the table had neither). *)
Theorem scorer_frame :
  exists df',
    calculate_autonomy_deficit df = Ok df' /\
    (forall name, name <> "NAD_Score"%string -> name <> "NAD_Score_Normalized"%string ->
                  get_col name df' = get_col name df) /\
    columns df' = columns df ++ fresh "NAD_Score" df ++ fresh "NAD_Score_Normalized" df /\
    (get_col "NAD_Score" df = None -> get_col "NAD_Score_Normalized" df = None ->
     columns df' = columns df ++ ["NAD_Score"; "NAD_Score_Normalized"]%string) /\
    (forall n, frame_rows df n -> frame_rows df' n).
Proof.
  exists scored.
  split; [exact (calculate_autonomy_deficit_ok df os us has_optout has_urgency)|].
  assert (Hcols : columns scored
                  = columns df ++ fresh "NAD_Score" df ++ fresh "NAD_Score_Normalized" df).
  { rewrite !columns_setitem, <- app_assoc. do 2 f_equal.
    unfold fresh. now rewrite get_col_setitem_other by discriminate. }
  split; [|split; [exact Hcols|split]].
  - intros name H1 H2. now rewrite !get_col_setitem_other by assumption.
  - intros N1 N2. rewrite Hcols. unfold fresh. now rewrite N1, N2.
  - intros n Hdf.
    assert (Ln : List.length nad = n).
    { apply nad_column_length; eapply feature_length; eauto. }
    apply frame_rows_setitem; [apply frame_rows_setitem|]; cbn; auto.
    now rewrite length_map.
Qed.

(** C8. Scoring is idempotent: on a table with the two feature columns the
    scorer returns a table on which a second call succeeds and returns that
    very table, NAD_Score and NAD_Score_Normalized being overwritten with
    the values they already hold. *)
Theorem scorer_idempotent :
  exists df',
    calculate_autonomy_deficit df = Ok df' /\
    calculate_autonomy_deficit df' = Ok df'.
Proof.
  exists scored.
  split; [exact (calculate_autonomy_deficit_ok df os us has_optout has_urgency)|].
  assert (Ho' : feature "OptOut_Difficulty_Score" scored = Some os)
    by now rewrite !feature_setitem_other by discriminate.
  assert (Hu' : feature "Urgency_Messaging_Score" scored = Some us)
    by now rewrite !feature_setitem_other by discriminate.
  rewrite (calculate_autonomy_deficit_ok scored os us Ho' Hu'). cbv zeta.
  assert (H1 : setitem "NAD_Score" (FloatCol nad) scored = scored).
  { apply setitem_same.
    rewrite get_col_setitem_other by discriminate. apply get_col_setitem_same. }
  rewrite H1. f_equal. apply setitem_same, get_col_setitem_same.
Qed.

End ScoredTable.

Lemma scorer_frame_witness :
  exists df',
    calculate_autonomy_deficit example_table = Ok df' /\
    (forall name, name <> "NAD_Score"%string -> name <> "NAD_Score_Normalized"%string ->
                  get_col name df' = get_col name example_table) /\
    columns df' = columns example_table ++ fresh "NAD_Score" example_table
                    ++ fresh "NAD_Score_Normalized" example_table /\
    (get_col "NAD_Score" example_table = None ->
     get_col "NAD_Score_Normalized" example_table = None ->
     columns df' = columns example_table ++ ["NAD_Score"; "NAD_Score_Normalized"]%string) /\
    (forall n, frame_rows example_table n -> frame_rows df' n).
Proof.
  apply (scorer_frame example_table [2; 10; 1; 9]%float [3; 10; 1; 9]%float).
  - vm_compute. reflexivity.
  - vm_compute. reflexivity.
Defined.

Lemma scorer_idempotent_witness :
  exists df',
    calculate_autonomy_deficit example_table = Ok df' /\
    calculate_autonomy_deficit df' = Ok df'.
Proof.
  apply (scorer_idempotent example_table [2; 10; 1; 9]%float [3; 10; 1; 9]%float).
  - vm_compute. reflexivity.
  - vm_compute. reflexivity.
Defined.

(** A str column cannot be multiplied by a weight. *)
Example scorer_str_column :
  calculate_autonomy_deficit str_optout_table = Raise TypeError.
Proof. reflexivity. Qed.

(** How the scorer ends, by the two columns it reads, in the order it
    reads them. *)
Lemma scorer_cases (df : DataFrame) :
  (get_col "OptOut_Difficulty_Score" df = None /\
   calculate_autonomy_deficit df = Raise (KeyError "OptOut_Difficulty_Score")) \/
  (exists o, get_col "OptOut_Difficulty_Score" df = Some o /\ has_str_values o = true /\
             calculate_autonomy_deficit df = Raise TypeError) \/
  (exists o, get_col "OptOut_Difficulty_Score" df = Some o /\ has_str_values o = false /\
             get_col "Urgency_Messaging_Score" df = None /\
             calculate_autonomy_deficit df = Raise (KeyError "Urgency_Messaging_Score")) \/
  (exists o u, get_col "OptOut_Difficulty_Score" df = Some o /\ has_str_values o = false /\
               get_col "Urgency_Messaging_Score" df = Some u /\ has_str_values u = true /\
               calculate_autonomy_deficit df = Raise TypeError) \/
  (exists o u df', get_col "OptOut_Difficulty_Score" df = Some o /\ has_str_values o = false /\
                   get_col "Urgency_Messaging_Score" df = Some u /\ has_str_values u = false /\
                   calculate_autonomy_deficit df = Ok df').
Proof.
  unfold calculate_autonomy_deficit, getitem, series_mul, series_div.
  destruct (get_col "OptOut_Difficulty_Score" df) as [o | ]; cbn [bind]; [|left; auto].
  right.
  destruct (astype_float_cases o) as [[So Ao] | [So [os Ao]]]; rewrite Ao; cbn [bind];
    [left; eauto|].
  right.
  destruct (get_col "Urgency_Messaging_Score" df) as [u | ]; cbn [bind]; [|left; eauto].
  right.
  destruct (astype_float_cases u) as [[Su Au] | [Su [us Au]]]; rewrite Au; cbn [bind];
    [left; eauto 10|].
  right. rewrite get_col_setitem_same. cbn [bind astype_float]. eauto 10.
Qed.

(** C9, as the code has it.  A KeyError of the scorer always means that
    OptOut_Difficulty_Score or Urgency_Messaging_Score is absent, and an
    absent OptOut_Difficulty_Score always raises it.  But an absent column
    is not the only way to fail, and not every absent column gives a
    KeyError: str values in a feature column raise a TypeError where they
    are multiplied.  Exactly: the scorer raises a KeyError when
    OptOut_Difficulty_Score is absent, or Urgency_Messaging_Score is absent
    and OptOut_Difficulty_Score holds no str value; it raises a TypeError
    when OptOut_Difficulty_Score holds str values, or it is present and
    Urgency_Messaging_Score holds str values; it returns when both columns
    are present and hold no str value.  On a table whose feature
    columns, where present, are numeric, the scorer raises a KeyError
    exactly when one of the two columns is absent (the error names the
    first absent one), and it succeeds when both are present. *)
Theorem scorer_missing_field (df : DataFrame) :
  ((exists key, calculate_autonomy_deficit df = Raise (KeyError key)) ->
   get_col "OptOut_Difficulty_Score" df = None \/
   get_col "Urgency_Messaging_Score" df = None) /\
  (get_col "OptOut_Difficulty_Score" df = None ->
   calculate_autonomy_deficit df = Raise (KeyError "OptOut_Difficulty_Score")) /\
  ((exists key, calculate_autonomy_deficit df = Raise (KeyError key)) <->
   get_col "OptOut_Difficulty_Score" df = None \/
   (get_col "Urgency_Messaging_Score" df = None /\
    forall o, get_col "OptOut_Difficulty_Score" df = Some o -> has_str_values o = false)) /\
  (calculate_autonomy_deficit df = Raise TypeError <->
   (exists o, get_col "OptOut_Difficulty_Score" df = Some o /\ has_str_values o = true) \/
   (exists u, get_col "OptOut_Difficulty_Score" df <> None /\
              get_col "Urgency_Messaging_Score" df = Some u /\ has_str_values u = true)) /\
  ((exists df', calculate_autonomy_deficit df = Ok df') <->
   exists o u, get_col "OptOut_Difficulty_Score" df = Some o /\
               get_col "Urgency_Messaging_Score" df = Some u /\
               has_str_values o = false /\ has_str_values u = false) /\
  ((forall name c,
       name = "OptOut_Difficulty_Score"%string \/ name = "Urgency_Messaging_Score"%string ->
       get_col name df = Some c -> is_numeric c = true) ->
   ((exists key, calculate_autonomy_deficit df = Raise (KeyError key)) <->
    (get_col "OptOut_Difficulty_Score" df = None \/
     get_col "Urgency_Messaging_Score" df = None)) /\
   (get_col "OptOut_Difficulty_Score" df <> None ->
    get_col "Urgency_Messaging_Score" df = None ->
    calculate_autonomy_deficit df = Raise (KeyError "Urgency_Messaging_Score")) /\
   (get_col "OptOut_Difficulty_Score" df <> None ->
    get_col "Urgency_Messaging_Score" df <> None ->
    exists df', calculate_autonomy_deficit df = Ok df')).
Proof.
  assert (Hnum_str : forall c, is_numeric c = true -> has_str_values c = false)
    by (intros [l | l | l]; cbn; congruence).
  destruct (scorer_cases df)
    as [(Ho & Hc) | [(o & Ho & So & Hc) | [(o & Ho & So & Hu & Hc)
        | [(o & u & Ho & So & Hu & Su & Hc) | (o & u & df' & Ho & So & Hu & Su & Hc)]]]];
    rewrite Hc, Ho; try rewrite Hu.
  - (* OptOut_Difficulty_Score is absent *)
    split; [auto|]. split; [auto|]. split; [split; eauto|].
    split.
    { split; [discriminate|].
      intros [(? & ? & _) | (? & ? & _)]; [discriminate | congruence]. }
    split; [split; [intros [? ?]; discriminate | intros (? & ? & ? & _); discriminate]|].
    intros _. split; [split; eauto|]. split; congruence.
  - (* OptOut_Difficulty_Score holds str values *)
    split; [intros [? ?]; discriminate|]. split; [discriminate|].
    split.
    { split; [intros [? ?]; discriminate|].
      intros [H | [_ H]]; [discriminate|]. specialize (H o eq_refl). congruence. }
    split; [split; eauto|].
    split.
    { split; [intros [? ?]; discriminate|].
      intros (o' & u' & E & _ & H & _). injection E as <-. congruence. }
    intros Hnum. specialize (Hnum_str o (Hnum _ o (or_introl eq_refl) Ho)). congruence.
  - (* Urgency_Messaging_Score is absent *)
    split; [auto|]. split; [discriminate|].
    split.
    { split; [intros _; right; split; [reflexivity | intros ? [= <-]; exact So]|eauto]. }
    split.
    { split; [discriminate|].
      intros [(o' & E & H) | (? & _ & ? & _)]; [|discriminate].
      injection E as <-. congruence. }
    split; [split; [intros [? ?]; discriminate | intros (? & ? & _ & ? & _); discriminate]|].
    intros _. split; [split; eauto|]. split; [reflexivity | congruence].
  - (* Urgency_Messaging_Score holds str values *)
    split; [intros [? ?]; discriminate|]. split; [discriminate|].
    split.
    { split; [intros [? ?]; discriminate|]. intros [H | [H _]]; discriminate. }
    split.
    { split; [|reflexivity]. intros _. right. exists u.
      split; [discriminate|]. split; [reflexivity | exact Su]. }
    split.
    { split; [intros [? ?]; discriminate|].
      intros (o' & u' & _ & E & _ & H). injection E as <-. congruence. }
    intros Hnum. specialize (Hnum_str u (Hnum _ u (or_intror eq_refl) Hu)). congruence.
  - (* both columns can be multiplied *)
    split; [intros [? ?]; discriminate|]. split; [discriminate|].
    split.
    { split; [intros [? ?]; discriminate|]. intros [H | [H _]]; discriminate. }
    split.
    { split; [discriminate|].
      intros [(o' & E & H) | (u' & _ & E & H)]; injection E as <-; congruence. }
    split; [split; eauto 10|].
    intros _. split.
    { split; [intros [? ?]; discriminate | intros [H | H]; discriminate]. }
    split; [discriminate | eauto].
Qed.

Lemma scorer_missing_field_witness :
  calculate_autonomy_deficit no_urgency_table
    = Raise (KeyError "Urgency_Messaging_Score") /\
  (exists df', calculate_autonomy_deficit example_table = Ok df') /\
  ~ (exists key, calculate_autonomy_deficit example_table = Raise (KeyError key)).
Proof.
  split; [|split].
  - apply (proj2 (proj2 (proj2 (proj2 (proj2 (scorer_missing_field no_urgency_table)))))).
    + intros name c [-> | ->] H; vm_compute in H; [|discriminate].
      injection H as <-. reflexivity.
    + discriminate.
    + reflexivity.
  - apply (proj2 (proj2 (proj2 (proj2 (proj2 (scorer_missing_field example_table)))))).
    + intros name c [-> | ->] H; vm_compute in H; injection H as <-; reflexivity.
    + discriminate.
    + discriminate.
  - intros H.
    apply (proj1 (scorer_missing_field example_table)) in H.
    destruct H as [H | H]; discriminate.
Defined.

(** Both columns present and yet a failure; a column absent and yet no
    missing-field error. *)
Lemma scorer_fails_with_both_fields :
  (get_col "OptOut_Difficulty_Score" str_both_table <> None /\
   get_col "Urgency_Messaging_Score" str_both_table <> None /\
   calculate_autonomy_deficit str_both_table = Raise TypeError) /\
  (get_col "Urgency_Messaging_Score" str_optout_table = None /\
   calculate_autonomy_deficit str_optout_table = Raise TypeError).
Proof.
  split; [split; [|split]|split]; try discriminate; reflexivity.
Qed.

(** A str column without a row has nothing to multiply: the scorer
    returns, with two empty columns. *)
Example scorer_zero_rows :
  exists df', calculate_autonomy_deficit zero_row_table = Ok df' /\
              get_col "NAD_Score" df' = Some (FloatCol []) /\
              get_col "NAD_Score_Normalized" df' = Some (FloatCol []).
Proof. eexists. repeat split. Qed.

(** The three ways the scorer ends on the example tables. *)
Example scorer_outcomes :
  calculate_autonomy_deficit no_optout_table
    = Raise (KeyError "OptOut_Difficulty_Score") /\
  calculate_autonomy_deficit no_urgency_table
    = Raise (KeyError "Urgency_Messaging_Score") /\
  exists df', calculate_autonomy_deficit example_table = Ok df'.
Proof. repeat split. eexists. by_compute. Qed.

(* ================================================================== *)
(** * The Data Simulator *)

Lemma nth_error_map_seq {A : Type} (f : nat -> A) (n i : nat) :
  (i < n)%nat -> nth_error (map f (seq 0 n)) i = Some (f i).
Proof.
  intros Hi. rewrite nth_error_map, nth_error_seq.
  apply Nat.ltb_lt in Hi. now rewrite Hi.
Qed.

Lemma combine_map_map {A B C : Type} (f : C -> A) (g : C -> B) (l : list C) :
  combine (map f l) (map g l) = map (fun i => (f i, g i)) l.
Proof.
  induction l as [ | x l IH]; cbn; [reflexivity | now rewrite IH].
Qed.

(** A check over a range of integers, run on each of them. *)
Lemma Z_range_forall (P : Z -> bool) (a : Z) (n : nat) :
  forallb P (map (fun k => a + Z.of_nat k) (seq 0 n)) = true ->
  forall z, a <= z < a + Z.of_nat n -> P z = true.
Proof.
  intros Hall z Hz. rewrite forallb_forall in Hall. apply Hall.
  apply in_map_iff. exists (Z.to_nat (z - a)). split; [lia|].
  apply in_seq. lia.
Qed.

Lemma loc_assign_length {A : Type} (mask : list bool) (xs vals : list A) :
  List.length (loc_assign mask xs vals) = List.length xs.
Proof.
  revert xs vals. induction mask as [ | [ | ] mask IH]; intros [ | x xs] vals; cbn;
    try reflexivity.
  - destruct vals; cbn; now rewrite IH.
  - now rewrite IH.
Qed.

Lemma np_choice_length {A : Type} (a b : A) (pick : nat -> bool) (size : nat) :
  List.length (np_choice a b pick size) = size.
Proof. unfold np_choice. now rewrite length_map, length_seq. Qed.

Lemma np_randint_length (low high : Z) (raw : nat -> Z) (size : nat) :
  List.length (np_randint low high raw size) = size.
Proof. unfold np_randint. now rewrite length_map, length_seq. Qed.

(** [randint(1, 10)] draws from 1 to 9. *)
Lemma randint_1_10 (raw : nat -> Z) (i : nat) : 1 <= randint_at 1 10 raw i < 10.
Proof. unfold randint_at. pose proof (Z.mod_pos_bound (raw i) (10 - 1)). lia. Qed.

Lemma mask_b_index (rs : RandomState) :
  mask_b rs = map (choice_group rs) (seq 0 n_users).
Proof.
  unfold mask_b, test_group, np_choice. rewrite map_map.
  apply map_ext. intros i. now destruct (choice_group rs i).
Qed.

Lemma test_group_nth (rs : RandomState) (i : nat) :
  (i < n_users)%nat ->
  nth_error (test_group rs) i = Some (if choice_group rs i then "B" else "A")%string.
Proof. intros Hi. unfold test_group, np_choice. now rewrite nth_error_map_seq. Qed.

Lemma test_group_is_b (rs : RandomState) (i : nat) :
  (i < n_users)%nat ->
  (nth_error (test_group rs) i = Some "B"%string <-> choice_group rs i = true).
Proof.
  intros Hi. rewrite test_group_nth by assumption.
  destruct (choice_group rs i); split; congruence.
Qed.

Lemma comprehension_biased_index (rs : RandomState) :
  comprehension_biased rs
  = map (fun i => if choice_group rs i
                  then (normal_comprehension rs i - 1.0)%float
                  else normal_comprehension rs i) (seq 0 n_users).
Proof.
  unfold comprehension_biased, loc_update, comprehension_drawn, np_normal.
  now rewrite mask_b_index, combine_map_map, map_map.
Qed.

Lemma urgency_biased_index (rs : RandomState) :
  urgency_biased rs
  = map (fun i =>
           let u := randint_at 1 10 (randint_urgency rs) i in
           if choice_group rs i
           then (float_of_Z (clip_int u 1 8) + 2.0)%float
           else float_of_Z u) (seq 0 n_users).
Proof.
  unfold urgency_biased, urgency_drawn, np_randint.
  now rewrite mask_b_index, combine_map_map, map_map.
Qed.

Lemma column_lengths (rs : RandomState) :
  List.length user_id = n_users /\
  List.length (test_group rs) = n_users /\
  List.length (goal_biased rs) = n_users /\
  List.length (comprehension_final rs) = n_users /\
  List.length (optout_drawn rs) = n_users /\
  List.length (urgency_final rs) = n_users.
Proof.
  split; [|split; [|split; [|split; [|split]]]].
  - unfold user_id. now rewrite length_map, length_seq.
  - apply np_choice_length.
  - unfold goal_biased, goal_drawn. now rewrite loc_assign_length, np_choice_length.
  - unfold comprehension_final.
    now rewrite length_map, comprehension_biased_index, length_map, length_seq.
  - apply np_randint_length.
  - unfold urgency_final.
    now rewrite length_map, urgency_biased_index, length_map, length_seq.
Qed.

(** C5. Whatever is drawn, the simulator returns a table of exactly 1000
    rows in six columns; every Test_Group is A or B; the UserID column is
    1000, 1001, ..., 1999: distinct, contiguous, starting at 1000. *)
Theorem simulate_data_shape (rs : RandomState) :
  n_users = 1000%nat /\
  frame_rows (simulate_data rs) 1000 /\
  columns (simulate_data rs)
    = ["UserID"; "Test_Group"; "Platform_Goal_Achieved"; "User_Comprehension_Score";
       "OptOut_Difficulty_Score"; "Urgency_Messaging_Score"]%string /\
  (exists tg,
      get_col "Test_Group" (simulate_data rs) = Some (ObjCol tg) /\
      List.length tg = 1000%nat /\
      Forall (fun g => g = "A"%string \/ g = "B"%string) tg) /\
  (exists ids,
      get_col "UserID" (simulate_data rs) = Some (IntCol ids) /\
      List.length ids = 1000%nat /\
      NoDup ids /\
      forall i, (i < 1000)%nat -> nth_error ids i = Some (1000 + Z.of_nat i)).
Proof.
  destruct (column_lengths rs) as (L1 & L2 & L3 & L4 & L5 & L6).
  split; [reflexivity|]. split; [|split; [reflexivity|split]].
  - unfold frame_rows, simulate_data. repeat constructor; cbn [snd col_len]; assumption.
  - exists (test_group rs). split; [reflexivity|]. split; [exact L2|].
    unfold test_group, np_choice. apply Forall_map, Forall_forall.
    intros i _. destruct (choice_group rs i); auto.
  - exists user_id. split; [reflexivity|]. split; [exact L1|]. split.
    + unfold user_id. apply Injective_map_NoDup; [|apply seq_NoDup].
      intros a b. apply Nat2Z.inj.
    + intros i Hi. unfold user_id. rewrite nth_error_map, nth_error_seq.
      apply Nat.ltb_lt in Hi. unfold n_users. rewrite Hi. cbn [option_map].
      f_equal. lia.
Qed.

Lemma simulate_data_shape_witness :
  exists ids,
    get_col "UserID" (simulate_data example_source) = Some (IntCol ids) /\
    nth_error ids 5 = Some 1005 /\
    nth_error ids 999 = Some 1999.
Proof.
  destruct (simulate_data_shape example_source)
    as (_ & _ & _ & _ & ids & Hget & _ & _ & Hnth).
  exists ids. split; [exact Hget|]. split.
  - apply (Hnth 5%nat). lia.
  - apply (Hnth 999%nat). lia.
Defined.

Lemma urgency_b_values (u : Z) :
  1 <= u < 10 ->
  let v := (float_of_Z (clip_int u 1 8) + 2.0)%float in
  (v <=? 10)%float = true /\ (8 <= u -> v = 10%float).
Proof.
  intros Hu v. subst v. split.
  - apply (Z_range_forall
             (fun z => (float_of_Z (clip_int z 1 8) + 2.0 <=? 10)%float) 1 9);
      [by_compute | lia].
  - intros H8. assert (E : clip_int u 1 8 = 8) by (unfold clip_int; lia).
    rewrite E. by_compute.
Qed.

Lemma score_draw_le_9 (u : Z) :
  1 <= u < 10 -> (float_of_Z u <=? 9)%float = true.
Proof.
  intros Hu.
  apply (Z_range_forall (fun z => (float_of_Z z <=? 9)%float) 1 9);
    [by_compute | lia].
Qed.

(** C3, as the code has it.  Urgency_Messaging_Score is drawn as an integer
    in [1,9].  In a group-B row the drawn value is clamped to [1,8] and
    increased by 2.0, which gives at most 10 (and exactly 10 from a draw of
    8 or 9).  In any other row the drawn value is kept unclamped at this
    step; it is at most 9, so it never exceeds 10.  Afterwards the whole
    column, both groups, is clamped to [1,10]. *)
Theorem urgency_pipeline (rs : RandomState) (i : nat) :
  (i < n_users)%nat ->
  exists u v,
    nth_error (urgency_drawn rs) i = Some u /\ 1 <= u <= 9 /\
    nth_error (urgency_biased rs) i = Some v /\
    (nth_error (test_group rs) i = Some "B"%string ->
       v = (float_of_Z (clip_int u 1 8) + 2.0)%float /\
       1 <= clip_int u 1 8 <= 8 /\
       (v <=? 10)%float = true /\
       (8 <= u -> v = 10%float)) /\
    (nth_error (test_group rs) i <> Some "B"%string ->
       v = float_of_Z u /\ (v <=? 9)%float = true) /\
    nth_error (urgency_final rs) i = Some (clip v 1 10) /\
    get_col "Urgency_Messaging_Score" (simulate_data rs)
      = Some (FloatCol (urgency_final rs)).
Proof.
  intros Hi. pose proof (randint_1_10 (randint_urgency rs) i) as Hu.
  exists (randint_at 1 10 (randint_urgency rs) i).
  eexists. split; [unfold urgency_drawn, np_randint; now rewrite nth_error_map_seq|].
  split; [lia|].
  split; [rewrite urgency_biased_index; now rewrite nth_error_map_seq|].
  cbv zeta. rewrite (test_group_is_b rs i Hi).
  split; [|split; [|split]].
  - intros ->. destruct (urgency_b_values _ Hu) as [B1 B2].
    split; [reflexivity|]. split; [unfold clip_int; lia|]. split; assumption.
  - intros Hb. destruct (choice_group rs i); [congruence|].
    split; [reflexivity | now apply score_draw_le_9].
  - unfold urgency_final. rewrite urgency_biased_index, map_map.
    now rewrite nth_error_map_seq.
  - reflexivity.
Qed.

Lemma urgency_pipeline_witness :
  exists u v,
    nth_error (urgency_drawn example_source) 1 = Some u /\ 1 <= u <= 9 /\
    nth_error (urgency_biased example_source) 1 = Some v /\
    (nth_error (test_group example_source) 1 = Some "B"%string ->
       v = (float_of_Z (clip_int u 1 8) + 2.0)%float /\
       1 <= clip_int u 1 8 <= 8 /\
       (v <=? 10)%float = true /\
       (8 <= u -> v = 10%float)) /\
    (nth_error (test_group example_source) 1 <> Some "B"%string ->
       v = float_of_Z u /\ (v <=? 9)%float = true) /\
    nth_error (urgency_final example_source) 1 = Some (clip v 1 10) /\
    get_col "Urgency_Messaging_Score" (simulate_data example_source)
      = Some (FloatCol (urgency_final example_source)).
Proof.
  apply (urgency_pipeline example_source 1).
  unfold n_users. lia.
Defined.

(** C3, the part of the claim that fails: in a row that is not in group B
    the value held before the final clamp never exceeds 10. *)
Lemma urgency_other_rows_never_exceed_10 :
  ~ (exists (rs : RandomState) (i : nat) (v : float),
        (i < n_users)%nat /\
        nth_error (test_group rs) i <> Some "B"%string /\
        nth_error (urgency_biased rs) i = Some v /\
        (10 <? v)%float = true).
Proof.
  intros (rs & i & v & Hi & Hb & Hv & Hgt).
  rewrite (test_group_is_b rs i Hi) in Hb.
  rewrite urgency_biased_index, nth_error_map_seq in Hv by assumption.
  cbv zeta in Hv.
  destruct (choice_group rs i); [congruence|].
  assert (E : float_of_Z (randint_at 1 10 (randint_urgency rs) i) = v) by congruence.
  rewrite <- E in Hgt.
  assert (H : (10 <? float_of_Z (randint_at 1 10 (randint_urgency rs) i))%float = false).
  { apply negb_true_iff.
    apply (Z_range_forall (fun z => negb (10 <? float_of_Z z)%float) 1 9);
      [by_compute | apply randint_1_10]. }
  congruence.
Qed.

(** The first rows of the table simulated from [example_source]. *)
Example simulate_data_example :
  map (fun kc => (fst kc,
                  match snd kc with
                  | IntCol xs => IntCol (firstn 4 xs)
                  | FloatCol xs => FloatCol (firstn 4 xs)
                  | ObjCol xs => ObjCol (firstn 4 xs)
                  end)) (simulate_data example_source)
  = [ ("UserID"%string, IntCol [1000; 1001; 1002; 1003]);
      ("Test_Group"%string, ObjCol ["A"; "B"; "A"; "B"]%string);
      ("Platform_Goal_Achieved"%string, IntCol [1; 1; 0; 0]);
      ("User_Comprehension_Score"%string, FloatCol [7.2; 10.0; 1.0; 6.2]%float);
      ("OptOut_Difficulty_Score"%string, IntCol [1; 2; 3; 4]);
      ("Urgency_Messaging_Score"%string, FloatCol [9.0; 10.0; 7.0; 8.0]%float) ].
Proof. by_compute. Qed.

(** [example_source] draws numbers. *)
Lemma example_source_numbers : normal_is_number example_source.
Proof.
  intros i. unfold example_source. cbn [normal_comprehension].
  destruct (i mod 3)%nat as [ | [ | k]]; reflexivity.
Defined.

Lemma comprehension_not_nan (rs : RandomState) (i : nat) :
  normal_is_number rs ->
  is_nan (if choice_group rs i
          then (normal_comprehension rs i - 1.0)%float
          else normal_comprehension rs i) = false.
Proof.
  intros Hn. destruct (choice_group rs i); [|apply Hn].
  apply sub_one_not_nan, Hn.
Qed.

Lemma between_round_clip (x : float) :
  is_nan x = false -> between 1 10 (np_round 1 (clip x 1 10)) = true.
Proof.
  intros Hx. pose proof (clip_1_10_range x Hx) as Hc.
  unfold between in *. apply andb_prop in Hc as [H1 H2].
  destruct (np_round_1_range _ H1 H2) as [R1 R2]. now rewrite R1, R2.
Qed.

Lemma between_urgency (b : bool) (u : Z) :
  1 <= u < 10 ->
  between 1 10 (clip (if b then (float_of_Z (clip_int u 1 8) + 2.0)%float
                      else float_of_Z u) 1 10) = true.
Proof.
  intros Hu.
  apply (Z_range_forall
           (fun z => between 1 10 (clip (if b then (float_of_Z (clip_int z 1 8) + 2.0)%float
                                         else float_of_Z z) 1 10)) 1 9);
    [destruct b; by_compute | lia].
Qed.

(** C4. In the table the simulator returns, every User_Comprehension_Score
    is the biased draw clamped to [1,10] and then rounded to one decimal,
    and it lies in [1,10]; every Urgency_Messaging_Score lies in [1,10]. *)
Theorem simulated_scores_in_range (rs : RandomState) :
  normal_is_number rs ->
  exists compr urg,
    get_col "User_Comprehension_Score" (simulate_data rs) = Some (FloatCol compr) /\
    get_col "Urgency_Messaging_Score" (simulate_data rs) = Some (FloatCol urg) /\
    List.length compr = 1000%nat /\ List.length urg = 1000%nat /\
    compr = map (fun x => np_round 1 (clip x 1 10)) (comprehension_biased rs) /\
    Forall (fun x => (1 <=? x)%float = true /\ (x <=? 10)%float = true) compr /\
    Forall (fun x => (1 <=? x)%float = true /\ (x <=? 10)%float = true) urg.
Proof.
  intros Hn. destruct (column_lengths rs) as (_ & _ & _ & L4 & _ & L6).
  exists (comprehension_final rs), (urgency_final rs).
  split; [reflexivity|]. split; [reflexivity|].
  split; [exact L4|]. split; [exact L6|]. split; [reflexivity|]. split.
  - unfold comprehension_final. rewrite comprehension_biased_index, map_map.
    apply Forall_map, Forall_forall. intros i _.
    apply andb_prop. apply between_round_clip, comprehension_not_nan, Hn.
  - unfold urgency_final. rewrite urgency_biased_index, map_map.
    apply Forall_map, Forall_forall. intros i _.
    apply andb_prop. apply between_urgency, randint_1_10.
Qed.

Lemma simulated_scores_in_range_witness :
  exists compr urg,
    get_col "User_Comprehension_Score" (simulate_data example_source)
      = Some (FloatCol compr) /\
    get_col "Urgency_Messaging_Score" (simulate_data example_source)
      = Some (FloatCol urg) /\
    List.length compr = 1000%nat /\ List.length urg = 1000%nat /\
    compr = map (fun x => np_round 1 (clip x 1 10)) (comprehension_biased example_source) /\
    Forall (fun x => (1 <=? x)%float = true /\ (x <=? 10)%float = true) compr /\
    Forall (fun x => (1 <=? x)%float = true /\ (x <=? 10)%float = true) urg.
Proof.
  apply (simulated_scores_in_range example_source example_source_numbers).
Defined.

(* ================================================================== *)
(** * The simulator followed by the scorer *)

Lemma simulated_features (rs : RandomState) :
  feature "OptOut_Difficulty_Score" (simulate_data rs)
    = Some (map float_of_Z (optout_drawn rs)) /\
  feature "Urgency_Messaging_Score" (simulate_data rs) = Some (urgency_final rs).
Proof. split; reflexivity. Qed.

(** The NAD score of a simulated row, from its group and its two draws. *)
Lemma simulated_nad_index (rs : RandomState) :
  series_add (map (fun x => (x * w_optout)%float) (map float_of_Z (optout_drawn rs)))
             (map (fun x => (x * w_urgency)%float) (urgency_final rs))
  = map (fun i =>
           let u := randint_at 1 10 (randint_urgency rs) i in
           nad_score (float_of_Z (randint_at 1 10 (randint_optout rs) i))
             (clip (if choice_group rs i
                    then (float_of_Z (clip_int u 1 8) + 2.0)%float
                    else float_of_Z u) 1 10))
        (seq 0 n_users).
Proof.
  unfold series_add, urgency_final, optout_drawn, np_randint.
  rewrite urgency_biased_index, !map_map, combine_map_map, map_map.
  reflexivity.
Qed.

Lemma simulated_nad_bound (b : bool) (o u : Z) :
  1 <= o < 10 -> 1 <= u < 10 ->
  let x := nad_score (float_of_Z o)
             (clip (if b then (float_of_Z (clip_int u 1 8) + 2.0)%float
                    else float_of_Z u) 1 10) in
  (x <=? 8.6)%float = true /\ (x / max_possible_score <? 1.0)%float = true.
Proof.
  intros Ho Hu x. subst x. apply andb_prop.
  revert u Hu.
  apply (Z_range_forall
           (fun o => forallb
              (fun u =>
                 let x := nad_score (float_of_Z o)
                            (clip (if b then (float_of_Z (clip_int u 1 8) + 2.0)%float
                                   else float_of_Z u) 1 10) in
                 ((x <=? 8.6) && (x / max_possible_score <? 1.0))%float)
              (map (fun k => 1 + Z.of_nat k) (seq 0 9))) 1 9) in Ho;
    [|destruct b; by_compute].
  intros u Hu.
  apply (Z_range_forall _ 1 9 Ho u). lia.
Qed.

(** C6. In a simulated table OptOut_Difficulty_Score is at most 9 and
    Urgency_Messaging_Score at most 10; scoring it succeeds, and in every
    row NAD_Score is at most 8.6 and NAD_Score_Normalized is strictly below
    1.0.  A normalized score of 1.0 or more needs a table the simulator
    does not produce, such as the four-row example (1.0) or off-scale
    scores (above 2). *)
Theorem simulated_nad_below_max :
  (forall rs : RandomState,
      exists os us df' nad nadn,
        feature "OptOut_Difficulty_Score" (simulate_data rs) = Some os /\
        feature "Urgency_Messaging_Score" (simulate_data rs) = Some us /\
        Forall (fun o => (o <=? 9)%float = true) os /\
        Forall (fun u => (u <=? 10)%float = true) us /\
        calculate_autonomy_deficit (simulate_data rs) = Ok df' /\
        get_col "NAD_Score" df' = Some (FloatCol nad) /\
        get_col "NAD_Score_Normalized" df' = Some (FloatCol nadn) /\
        List.length nad = 1000%nat /\ List.length nadn = 1000%nat /\
        Forall (fun x => (x <=? 8.6)%float = true) nad /\
        Forall (fun x => (x <? 1.0)%float = true) nadn) /\
  (exists df',
      calculate_autonomy_deficit example_table = Ok df' /\
      exists nadn, get_col "NAD_Score_Normalized" df' = Some (FloatCol nadn) /\
                   Exists (fun x => (1.0 <=? x)%float = true) nadn) /\
  (exists df',
      calculate_autonomy_deficit offscale_table = Ok df' /\
      exists nadn, get_col "NAD_Score_Normalized" df' = Some (FloatCol nadn) /\
                   Exists (fun x => (1.0 <? x)%float = true) nadn).
Proof.
  split; [|split].
  - intros rs. destruct (simulated_features rs) as [Fo Fu].
    pose proof (calculate_autonomy_deficit_ok _ _ _ Fo Fu) as Hok. cbv zeta in Hok.
    rewrite simulated_nad_index in Hok.
    set (nad := map _ (seq 0 n_users)) in Hok.
    exists (map float_of_Z (optout_drawn rs)), (urgency_final rs).
    eexists. exists nad, (map (fun x => (x / max_possible_score)%float) nad).
    split; [exact Fo|]. split; [exact Fu|].
    split.
    { unfold optout_drawn, np_randint. rewrite map_map.
      apply Forall_map, Forall_forall. intros i _.
      apply score_draw_le_9, randint_1_10. }
    split.
    { unfold urgency_final. rewrite urgency_biased_index, map_map.
      apply Forall_map, Forall_forall. intros i _.
      pose proof (between_urgency (choice_group rs i) _
                    (randint_1_10 (randint_urgency rs) i)) as Hb.
      apply andb_prop in Hb. apply Hb. }
    split; [exact Hok|].
    split; [rewrite get_col_setitem_other by discriminate; apply get_col_setitem_same|].
    split; [apply get_col_setitem_same|].
    assert (Ln : List.length nad = 1000%nat)
      by (unfold nad; now rewrite length_map, length_seq).
    split; [exact Ln|]. split; [now rewrite length_map|].
    split; [|unfold nad; rewrite map_map]; apply Forall_map, Forall_forall; intros i _;
      apply (simulated_nad_bound (choice_group rs i) _ _
               (randint_1_10 (randint_optout rs) i) (randint_1_10 (randint_urgency rs) i)).
  - eexists. split; [by_compute|].
    eexists. split; [by_compute|].
    apply Exists_cons_tl, Exists_cons_hd. reflexivity.
  - eexists. split; [by_compute|].
    eexists. split; [by_compute|].
    apply Exists_cons_hd. reflexivity.
Qed.

(* ================================================================== *)
(** * The Trade-off Reporter *)

Lemma insert_key_in (x k : string) (l : list string) :
  In x (insert_key k l) <-> x = k \/ In x l.
Proof.
  induction l as [ | h t IH]; cbn.
  - intuition.
  - destruct (String.compare k h) eqn:E; cbn.
    + apply String.compare_eq_iff in E. subst h. intuition.
    + intuition.
    + rewrite IH. intuition.
Qed.

Lemma group_keys_in (x : string) (labels : list string) :
  In x (group_keys labels) <-> In x labels.
Proof.
  unfold group_keys. induction labels as [ | h t IH]; cbn; [tauto|].
  rewrite insert_key_in, IH. intuition.
Qed.

Lemma existsb_eqb_in (k : string) (l : list string) :
  existsb (String.eqb k) l = true <-> In k l.
Proof.
  rewrite existsb_exists. split.
  - intros (x & Hx & E). apply String.eqb_eq in E. now subst.
  - intros H. exists k. split; [assumption | apply String.eqb_refl].
Qed.

Lemma existsb_group_keys (k : string) (labels : list string) :
  existsb (String.eqb k) (group_keys labels) = existsb (String.eqb k) labels.
Proof.
  destruct (existsb (String.eqb k) labels) eqn:E.
  - apply existsb_eqb_in, group_keys_in, existsb_eqb_in. exact E.
  - destruct (existsb (String.eqb k) (group_keys labels)) eqn:E'; [|reflexivity].
    apply (proj1 (existsb_eqb_in _ _)), (proj1 (group_keys_in _ _)) in E'.
    apply (proj2 (existsb_eqb_in _ _)) in E'. congruence.
Qed.

Lemma loc_iloc0_map (mk : string -> metrics_row) (l : list string) (k : string)
    (field : metrics_row -> float) :
  (forall x, Test_Group (mk x) = x) ->
  loc_iloc0 (map mk l) k field
  = if existsb (String.eqb k) l then Ok (field (mk k)) else Raise IndexError.
Proof.
  intros Hmk. unfold loc_iloc0. induction l as [ | h t IH]; cbn; [reflexivity|].
  rewrite Hmk, (String.eqb_sym k h).
  destruct (String.eqb h k) eqn:E; cbn.
  - apply String.eqb_eq in E. now subst.
  - exact IH.
Qed.

(** A lookup in [group_metrics] finds the means of the rows of that group,
    or nothing when the group has no row. *)
Lemma loc_iloc0_group_metrics (mean : list float -> float) (labels : list string)
    (goal compr : list float) (k : string) (field : metrics_row -> float) :
  loc_iloc0 (group_metrics mean labels goal compr) k field
  = if existsb (String.eqb k) labels
    then Ok (field {| Test_Group := k;
                      Goal_Rate := mean (group_values labels k goal);
                      Comprehension_Avg := mean (group_values labels k compr) |})
    else Raise IndexError.
Proof.
  unfold group_metrics. rewrite loc_iloc0_map by reflexivity.
  now rewrite existsb_group_keys.
Qed.

Lemma group_size_existsb (labels : list string) (k : string) :
  group_size (ObjCol labels) k = 0%nat <-> existsb (String.eqb k) labels = false.
Proof.
  cbn [group_size]. induction labels as [ | h t IH]; cbn; [tauto|].
  rewrite (String.eqb_sym k h). destruct (String.eqb h k); cbn.
  - split; discriminate.
  - exact IH.
Qed.

(** What the reporter computes once its three columns are read. *)
Lemma generate_visualization_read (mean : list float -> float) (df : DataFrame)
    (tg : column) (goal compr : list float) :
  get_col "Test_Group" df = Some tg ->
  feature "Platform_Goal_Achieved" df = Some goal ->
  feature "User_Comprehension_Score" df = Some compr ->
  generate_visualization mean df
  = match tg with
    | ObjCol labels => tradeoff_of (group_metrics mean labels goal compr)
    | _ => Raise IndexError
    end.
Proof.
  intros Ht Hg Hc.
  destruct (feature_inv _ _ _ Hg) as (gc & Hgg & Hga).
  destruct (feature_inv _ _ _ Hc) as (cc & Hgc & Hca).
  unfold generate_visualization, getitem.
  rewrite Ht, Hgg, Hgc. cbn [bind]. rewrite Hga, Hca. reflexivity.
Qed.

(** Without a row there is no group: the lookup of group B fails, also on
    str columns. *)
Example reporter_zero_rows :
  generate_visualization mean_f64 zero_row_table = Raise IndexError.
Proof. reflexivity. Qed.

Lemma float_neq_by_eqb (a b : float) : (a =? b)%float = false -> (b =? b)%float = true -> a <> b.
Proof. intros H1 H2 E. rewrite E in H1. congruence. Qed.

(** C2, as the code has it.  On a scored table with rows of both groups the
    reporter returns the two figures nudge_effect = (mean goal of B - mean
    goal of A) * 100 and ethical_cost = mean comprehension of A - mean
    comprehension of B.  With goal rates 0.25 for A and 0.35 for B the
    nudge effect is the raw number 9.999999999999998, which is 10.0 up to
    binary64 rounding (it rounds to 10.0), and not the fraction
    0.09999999999999998. *)
Theorem tradeoff_figures (mean : list float -> float) (df : DataFrame)
    (labels : list string) (goal compr : list float) :
  get_col "Test_Group" df = Some (ObjCol labels) ->
  feature "Platform_Goal_Achieved" df = Some goal ->
  feature "User_Comprehension_Score" df = Some compr ->
  In "A"%string labels -> In "B"%string labels ->
  let goal_a := mean (group_values labels "A" goal) in
  let goal_b := mean (group_values labels "B" goal) in
  let compr_a := mean (group_values labels "A" compr) in
  let compr_b := mean (group_values labels "B" compr) in
  generate_visualization mean df
  = Ok [ {| Metric := "Platform Goal Increase (%)";
            Value := ((goal_b - goal_a) * 100)%float;
            Type_ := "Platform Gain (Desired)" |};
         {| Metric := "User Comprehension Drop (Points)";
            Value := (compr_a - compr_b)%float;
            Type_ := "User Cost (Ethical Concern)" |} ] /\
  (goal_a = 0.25%float -> goal_b = 0.35%float ->
   ((goal_b - goal_a) * 100)%float = 9.999999999999998%float /\
   np_round 1 ((goal_b - goal_a) * 100) = 10.0%float /\
   (goal_b - goal_a)%float = 0.09999999999999998%float).
Proof.
  intros Ht Hg Hc Ha Hb goal_a goal_b compr_a compr_b. split.
  - rewrite (generate_visualization_read mean df _ goal compr Ht Hg Hc).
    unfold tradeoff_of. rewrite !loc_iloc0_group_metrics.
    apply existsb_eqb_in in Ha, Hb. rewrite Ha, Hb. reflexivity.
  - intros -> ->. repeat split; by_compute.
Qed.

Lemma tradeoff_figures_witness :
  let goal := map float_of_Z rates_goal in
  let goal_a := mean_f64 (group_values rates_labels "A" goal) in
  let goal_b := mean_f64 (group_values rates_labels "B" goal) in
  let compr_a := mean_f64 (group_values rates_labels "A" rates_compr) in
  let compr_b := mean_f64 (group_values rates_labels "B" rates_compr) in
  goal_a = 0.25%float /\ goal_b = 0.35%float /\
  generate_visualization mean_f64 rates_table
  = Ok [ {| Metric := "Platform Goal Increase (%)";
            Value := ((goal_b - goal_a) * 100)%float;
            Type_ := "Platform Gain (Desired)" |};
         {| Metric := "User Comprehension Drop (Points)";
            Value := (compr_a - compr_b)%float;
            Type_ := "User Cost (Ethical Concern)" |} ] /\
  ((goal_b - goal_a) * 100)%float = 9.999999999999998%float /\
  np_round 1 ((goal_b - goal_a) * 100) = 10.0%float /\
  (goal_b - goal_a)%float = 0.09999999999999998%float.
Proof.
  intros goal goal_a goal_b compr_a compr_b.
  assert (Ha : goal_a = 0.25%float) by (vm_compute; reflexivity).
  assert (Hb : goal_b = 0.35%float) by (vm_compute; reflexivity).
  destruct (tradeoff_figures mean_f64 rates_table rates_labels goal rates_compr)
    as [H1 H2].
  - reflexivity.
  - reflexivity.
  - reflexivity.
  - apply existsb_eqb_in. reflexivity.
  - apply existsb_eqb_in. reflexivity.
  - split; [exact Ha|]. split; [exact Hb|]. split; [exact H1|]. exact (H2 Ha Hb).
Defined.

(** C2, the part of the claim that fails: with goal rates 0.25 for group A
    and 0.35 for group B the nudge effect the reporter computes is not
    10.0. *)
Lemma nudge_effect_is_not_10 :
  map (fun r => (Test_Group r, Goal_Rate r))
      (group_metrics mean_f64 rates_labels (map float_of_Z rates_goal) rates_compr)
    = [("A"%string, 0.25%float); ("B"%string, 0.35%float)] /\
  exists rows,
    generate_visualization mean_f64 rates_table = Ok rows /\
    map Value rows = [9.999999999999998; 1.0]%float /\
    9.999999999999998%float <> 10.0%float.
Proof.
  split; [by_compute|].
  eexists. split; [by_compute|]. split; [reflexivity|].
  apply float_neq_by_eqb; reflexivity.
Qed.

(** C10. On a table that has the three columns the reporter reads, it fails
    with an IndexError, raised by the [.iloc[0]] lookup in the group
    metrics, exactly when group A or group B has no row; with both groups
    present it returns its figures. *)
Theorem reporter_missing_group (mean : list float -> float) (df : DataFrame)
    (tg : column) (goal compr : list float) :
  get_col "Test_Group" df = Some tg ->
  feature "Platform_Goal_Achieved" df = Some goal ->
  feature "User_Comprehension_Score" df = Some compr ->
  ((group_size tg "A" = 0%nat \/ group_size tg "B" = 0%nat) <->
   generate_visualization mean df = Raise IndexError) /\
  (group_size tg "A" <> 0%nat -> group_size tg "B" <> 0%nat ->
   exists rows, generate_visualization mean df = Ok rows).
Proof.
  intros Ht Hg Hc.
  rewrite (generate_visualization_read mean df tg goal compr Ht Hg Hc).
  destruct tg as [xs | xs | labels].
  - cbn [group_size]. split; [tauto | congruence].
  - cbn [group_size]. split; [tauto | congruence].
  - rewrite !group_size_existsb.
    unfold tradeoff_of. rewrite !loc_iloc0_group_metrics.
    destruct (existsb (String.eqb "A") labels), (existsb (String.eqb "B") labels);
      cbn [bind]; split; try (intros; eexists; reflexivity);
      intuition (try discriminate; try congruence).
Qed.

Lemma reporter_missing_group_witness :
  ((group_size (ObjCol (repeat "A"%string 4)) "A" = 0%nat \/
    group_size (ObjCol (repeat "A"%string 4)) "B" = 0%nat) <->
   generate_visualization mean_f64 only_a_table = Raise IndexError) /\
  (group_size (ObjCol (repeat "A"%string 4)) "A" <> 0%nat ->
   group_size (ObjCol (repeat "A"%string 4)) "B" <> 0%nat ->
   exists rows, generate_visualization mean_f64 only_a_table = Ok rows).
Proof.
  apply (reporter_missing_group mean_f64 only_a_table (ObjCol (repeat "A"%string 4))
           [1; 0; 0; 0]%float (repeat 7.0%float 4)).
  - reflexivity.
  - vm_compute. reflexivity.
  - reflexivity.
Defined.

(* ================================================================== *)
(** * The sign of a binary64 difference

    [generate_visualization] reports two differences of group means.  The
    sign of a binary64 difference, also after scaling by 100, is the order
    of its operands: subtraction rounds, but never across zero. *)

Lemma Prim2SF_zero : Prim2SF 0%float = S754_zero false.
Proof. by_compute. Qed.

Lemma ltb_zero_sign (x : float) :
  (0 <? x)%float = true <-> SFsign (Prim2SF x) = Some Gt.
Proof.
  rewrite ltb_spec, Prim2SF_zero. unfold SFltb, SFcompare, SFsign.
  destruct (Prim2SF x) as [s | [|] | | [|] m e]; split; congruence.
Qed.

Lemma ltb_sign_zero (x : float) :
  (x <? 0)%float = true <-> SFsign (Prim2SF x) = Some Lt.
Proof.
  rewrite ltb_spec, Prim2SF_zero. unfold SFltb, SFcompare, SFsign.
  destruct (Prim2SF x) as [s | [|] | | [|] m e]; split; congruence.
Qed.

Lemma valid_finite (s : bool) (m : positive) (e : Z) :
  valid_binary (S754_finite s m e) = true ->
  -1074 <= e /\ Zpos m < 2 ^ 53 /\ (-1074 < e -> 2 ^ 52 <= Zpos m).
Proof.
  cbn [SpecFloat.valid_binary]. unfold bounded, canonical_mantissa. intros H.
  apply andb_prop in H as [H _]. apply Z.eqb_eq in H.
  unfold fexp, SpecFloat.emin, prec, emax in H.
  pose proof (digits2_pos_bounds m) as [Blo Bhi].
  assert (Hd : Zpos (digits2_pos m) <= 53) by lia.
  split; [lia|]. split.
  - eapply Z.lt_le_trans; [exact Bhi|]. apply Z.pow_le_mono_r; lia.
  - intros He. assert (Hd' : Zpos (digits2_pos m) = 53) by lia.
    rewrite Hd' in Blo. exact Blo.
Qed.

(** Shifting a significand down to its format keeps it positive unless the
    value is below the smallest subnormal. *)
Lemma shr_fexp_pos (m : positive) (e : Z) :
  -1074 - e < Zpos (digits2_pos m) ->
  0 < shr_m (fst (shr_fexp prec emax (Zpos m) e loc_Exact)) /\
  -1074 <= snd (shr_fexp prec emax (Zpos m) e loc_Exact).
Proof.
  intros He. unfold shr_fexp. cbn [Zdigits2 shr_record_of_loc].
  set (d := Zpos (digits2_pos m)) in *.
  assert (Hf : fexp prec emax (d + e) = Z.max (d + e - 53) (-1074))
    by (unfold fexp, SpecFloat.emin, prec, emax; lia).
  rewrite Hf. unfold shr.
  destruct (Z.max (d + e - 53) (-1074) - e) as [ | n | n] eqn:En; cbn [fst snd shr_m]; try lia.
  pose proof (iter_shr_1 (Zpos m) n ltac:(lia)) as (_ & Im & _).
  rewrite Im. split; [|lia].
  pose proof (digits2_pos_bounds m) as [Blo _]. fold d in Blo.
  apply Z.div_str_pos. split; [apply Z.pow_pos_nonneg; lia|].
  eapply Z.le_trans; [|exact Blo]. apply Z.pow_le_mono_r; lia.
Qed.

Lemma binary_round_aux_sign (sx : bool) (M : positive) (E : Z) :
  -1074 - E < Zpos (digits2_pos M) ->
  SFsign (binary_round_aux prec emax sx (Zpos M) E loc_Exact)
  = Some (if sx then Lt else Gt).
Proof.
  intros He. unfold binary_round_aux.
  pose proof (shr_fexp_pos M E He) as [P1 P2].
  destruct (shr_fexp prec emax (Zpos M) E loc_Exact) as [mrs' e']. cbn [fst snd] in P1, P2.
  pose proof (round_nearest_even_loc mrs') as [Rb _]. cbv zeta in Rb.
  destruct (round_nearest_even (shr_m mrs') (loc_of_shr_record mrs')) as [ | rho | rho];
    try lia.
  assert (He' : -1074 - e' < Zpos (digits2_pos rho)) by lia.
  pose proof (shr_fexp_pos rho e' He') as [Q1 _].
  destruct (shr_fexp prec emax (Zpos rho) e' loc_Exact) as [mrs'' e'']. cbn [fst] in Q1.
  destruct (shr_m mrs'') as [ | p | p]; try lia.
  destruct (e'' <=? emax - prec); reflexivity.
Qed.

Lemma binary_round_sign (sx : bool) (mx : positive) (ex : Z) :
  -1074 <= ex ->
  SFsign (binary_round prec emax sx mx ex) = Some (if sx then Lt else Gt).
Proof.
  intros He. unfold binary_round, shl_align.
  assert (Hf : -1074 <= fexp prec emax (Zpos (digits2_pos mx) + ex))
    by (unfold fexp, SpecFloat.emin, prec, emax; lia).
  destruct (fexp prec emax (Zpos (digits2_pos mx) + ex) - ex) as [ | d | d] eqn:Ed;
    apply binary_round_aux_sign; lia.
Qed.

Lemma binary_normalize_sign (D e : Z) (sz : bool) :
  -1074 <= e ->
  SFsign (binary_normalize prec emax D e sz) = Some (D ?= 0).
Proof.
  intros He. destruct D as [ | p | p]; cbn [binary_normalize].
  - reflexivity.
  - now rewrite binary_round_sign.
  - now rewrite binary_round_sign.
Qed.

Lemma iter_xO_value (m d : positive) : Zpos (Pos.iter xO m d) = Zpos m * 2 ^ Zpos d.
Proof.
  induction d as [ | d IH] using Pos.peano_ind.
  - cbn [Pos.iter]. rewrite Pos2Z.inj_xO. lia.
  - rewrite Pos.iter_succ, Pos2Z.inj_xO, IH, Pos2Z.inj_succ, Z.pow_succ_r by lia. lia.
Qed.

(** Aligning a significand to a lower exponent keeps the value. *)
Lemma shl_align_value (mx : positive) (ex ez : Z) :
  ez <= ex -> Zpos (fst (shl_align mx ex ez)) = Zpos mx * 2 ^ (ex - ez).
Proof.
  intros H. unfold shl_align.
  destruct (ez - ex) as [ | d | d] eqn:Ed; cbn [fst]; try lia.
  - replace (ex - ez) with 0 by lia. lia.
  - rewrite iter_xO_value. f_equal. f_equal. lia.
Qed.

(** The order of two valid significand-exponent pairs is the order of the
    significands aligned to the lower exponent. *)
Lemma aligned_compare (s1 s2 : bool) (m1 m2 : positive) (e1 e2 : Z) :
  valid_binary (S754_finite s1 m1 e1) = true ->
  valid_binary (S754_finite s2 m2 e2) = true ->
  (Zpos (fst (shl_align m1 e1 (Z.min e1 e2))) ?= Zpos (fst (shl_align m2 e2 (Z.min e1 e2))))
  = match e1 ?= e2 with
    | Lt => Lt
    | Gt => Gt
    | Eq => Pos.compare_cont Eq m1 m2
    end.
Proof.
  intros V1 V2.
  apply valid_finite in V1 as (L1 & U1 & N1). apply valid_finite in V2 as (L2 & U2 & N2).
  rewrite !shl_align_value by lia.
  destruct (Z.compare_spec e1 e2) as [He | He | He].
  - subst e2. rewrite Z.min_id, Z.sub_diag. cbn [Z.pow]. rewrite !Z.mul_1_r. reflexivity.
  - rewrite Z.min_l by lia. rewrite Z.sub_diag. cbn [Z.pow]. rewrite Z.mul_1_r.
    apply Z.compare_lt_iff.
    assert (2 ^ 1 <= 2 ^ (e2 - e1)) by (apply Z.pow_le_mono_r; lia).
    specialize (N2 ltac:(lia)). change (2 ^ 1) with 2 in *.
    change (2 ^ 52) with 4503599627370496 in *. change (2 ^ 53) with 9007199254740992 in *.
    nia.
  - rewrite Z.min_r by lia. rewrite Z.sub_diag. cbn [Z.pow]. rewrite Z.mul_1_r.
    apply Z.compare_gt_iff.
    assert (2 ^ 1 <= 2 ^ (e1 - e2)) by (apply Z.pow_le_mono_r; lia).
    specialize (N1 ltac:(lia)). change (2 ^ 1) with 2 in *.
    change (2 ^ 52) with 4503599627370496 in *. change (2 ^ 53) with 9007199254740992 in *.
    nia.
Qed.

(** The sign of a difference is the order of its operands, unless the
    difference is NaN. *)
Lemma SFsub_sign (x y : spec_float) :
  valid_binary x = true -> valid_binary y = true ->
  SF64sub x y = S754_nan \/ SFsign (SF64sub x y) = SFcompare x y.
Proof.
  intros Vx Vy. unfold SF64sub, SFsub.
  destruct x as [sx | sx | | sx mx ex], y as [sy | sy | | sy my ey];
    try (left; reflexivity);
    try (right; destruct sx; reflexivity);
    try (right; destruct sy; reflexivity);
    try (destruct sx, sy; (left; reflexivity) || (right; reflexivity)).
  right.
  pose proof (valid_finite _ _ _ Vx) as (Lx & _). pose proof (valid_finite _ _ _ Vy) as (Ly & _).
  rewrite binary_normalize_sign by lia.
  pose proof (aligned_compare sx sy mx my ex ey Vx Vy) as Hc.
  set (ax := Zpos (fst (shl_align mx ex (Z.min ex ey)))) in *.
  set (ay := Zpos (fst (shl_align my ey (Z.min ex ey)))) in *.
  assert (Pax : 0 < ax) by (unfold ax; lia).
  assert (Pay : 0 < ay) by (unfold ay; lia).
  unfold SFcompare. f_equal.
  destruct sx, sy; cbn [cond_Zopp].
  - replace (- ax - - ay) with (ay - ax) by lia.
    rewrite <- Z.compare_sub, Z.compare_antisym, Hc.
    destruct (ex ?= ey); reflexivity.
  - apply Z.compare_lt_iff. lia.
  - apply Z.compare_gt_iff. lia.
  - rewrite <- Z.compare_sub. exact Hc.
Qed.

(** Swapping the operands of a comparison reverses its outcome. *)
Lemma SFcompare_antisym (x y : spec_float) :
  SFcompare y x = option_map CompOpp (SFcompare x y).
Proof.
  unfold SFcompare.
  destruct x as [sx | sx | | sx mx ex], y as [sy | sy | | sy my ey];
    try reflexivity; try (destruct sx; reflexivity); try (destruct sy; reflexivity);
    try (destruct sx, sy; reflexivity).
  cbn [option_map]. f_equal.
  destruct sx, sy; try reflexivity;
    rewrite (Z.compare_antisym ex ey);
    change (Pos.compare_cont Eq my mx) with (Pos.compare my mx);
    change (Pos.compare_cont Eq mx my) with (Pos.compare mx my);
    rewrite (Pos.compare_antisym mx my);
    destruct (ex ?= ey); cbn [CompOpp]; try reflexivity;
    destruct (Pos.compare mx my); reflexivity.
Qed.

(** Multiplying by 100 keeps the sign. *)
Lemma SFmul_100_sign (x : spec_float) :
  valid_binary x = true -> SFsign (SF64mul x SF_hundred) = SFsign x.
Proof.
  intros Vx. unfold SF64mul, SFmul, SF_hundred.
  destruct x as [sx | sx | | sx mx ex]; cbn [SFsign]; rewrite ?xorb_false_r; try reflexivity.
  apply valid_finite in Vx as (Lx & _).
  apply binary_round_aux_sign.
  pose proof (digits2_pos_bounds (mx * 7036874417766400)) as [_ Bhi].
  rewrite Pos2Z.inj_mul in Bhi.
  assert (Hd : 52 < Zpos (digits2_pos (mx * 7036874417766400))).
  { apply (Z.pow_lt_mono_r_iff 2); [lia | lia |].
    change (2 ^ 52) with 4503599627370496. lia. }
  lia.
Qed.

Lemma difference_sign (a b : float) (c : comparison) :
  c <> Eq ->
  (SFsign (Prim2SF (b - a)) = Some c <-> SFcompare (Prim2SF b) (Prim2SF a) = Some c).
Proof.
  intros Hc. rewrite sub_spec.
  destruct (SFsub_sign _ _ (Prim2SF_valid b) (Prim2SF_valid a)) as [Hn | Hs].
  - rewrite Hn. cbn [SFsign]. split; [discriminate|].
    intros H. exfalso. revert Hn H. unfold SF64sub, SFsub, SFcompare.
    destruct (Prim2SF b) as [sx | sx | | sx mx ex], (Prim2SF a) as [sy | sy | | sy my ey];
      try discriminate; try (destruct sx, sy; discriminate || congruence).
    intros Hn _. exact (binary_normalize_not_nan _ _ _ Hn).
  - rewrite Hs. tauto.
Qed.

(** [(b - a) * 100] is positive exactly when [a < b], negative exactly when
    [b < a]. *)
Lemma percent_difference_sign (a b : float) (c : comparison) :
  c <> Eq ->
  (SFsign (Prim2SF ((b - a) * 100)) = Some c <-> SFcompare (Prim2SF b) (Prim2SF a) = Some c).
Proof.
  intros Hc. rewrite mul_spec, Prim2SF_hundred, sub_spec.
  pose proof (Prim2SF_valid (b - a)) as Vd. rewrite sub_spec in Vd.
  rewrite (SFmul_100_sign _ Vd).
  destruct (SFsub_sign _ _ (Prim2SF_valid b) (Prim2SF_valid a)) as [Hn | Hs].
  - rewrite Hn. cbn [SFsign]. split; [discriminate|].
    intros H. exfalso. revert Hn H. unfold SF64sub, SFsub, SFcompare.
    destruct (Prim2SF b) as [sx | sx | | sx mx ex], (Prim2SF a) as [sy | sy | | sy my ey];
      try discriminate; try (destruct sx, sy; discriminate || congruence).
    intros Hn _. exact (binary_normalize_not_nan _ _ _ Hn).
  - rewrite Hs. tauto.
Qed.

Lemma ltb_compare (a b : float) :
  ((a <? b)%float = true <-> SFcompare (Prim2SF b) (Prim2SF a) = Some Gt) /\
  ((b <? a)%float = true <-> SFcompare (Prim2SF b) (Prim2SF a) = Some Lt).
Proof.
  rewrite !ltb_spec. unfold SFltb. rewrite (SFcompare_antisym (Prim2SF b) (Prim2SF a)).
  destruct (SFcompare (Prim2SF b) (Prim2SF a)) as [[ | | ] | ]; cbn; split; split; congruence.
Qed.

Lemma difference_signs (a b : float) :
  (0 <? b - a)%float = (a <? b)%float /\ (b - a <? 0)%float = (b <? a)%float.
Proof.
  split; apply eq_true_iff_eq.
  - rewrite ltb_zero_sign, (difference_sign a b Gt) by discriminate.
    symmetry. apply ltb_compare.
  - rewrite ltb_sign_zero, (difference_sign a b Lt) by discriminate.
    symmetry. apply ltb_compare.
Qed.

Lemma percent_signs (a b : float) :
  (0 <? (b - a) * 100)%float = (a <? b)%float /\ ((b - a) * 100 <? 0)%float = (b <? a)%float.
Proof.
  split; apply eq_true_iff_eq.
  - rewrite ltb_zero_sign, (percent_difference_sign a b Gt) by discriminate.
    symmetry. apply ltb_compare.
  - rewrite ltb_sign_zero, (percent_difference_sign a b Lt) by discriminate.
    symmetry. apply ltb_compare.
Qed.

(* ================================================================== *)
(** * The simulator's columns, row by row *)

Lemma loc_assign_nth {A : Type} (mask : list bool) (xs vals : list A) (i : nat)
    (b : bool) (x : A) :
  nth_error mask i = Some b -> nth_error xs i = Some x ->
  nth_error (loc_assign mask xs vals) i
  = if b then match nth_error vals (rank_in mask i) with
              | Some v => Some v
              | None => Some x
              end
    else Some x.
Proof.
  unfold rank_in, mask_sum.
  revert xs vals i. induction mask as [ | m mask IH]; intros xs vals i Hm Hx.
  - destruct i; discriminate.
  - destruct xs as [ | x0 xs]; [destruct i; discriminate|].
    destruct i as [ | i]; cbn in Hm, Hx.
    + injection Hm as ->. injection Hx as ->.
      destruct b; cbn; [destruct vals|]; reflexivity.
    + destruct m; cbn [loc_assign firstn filter List.length].
      * destruct vals as [ | v vals]; cbn [nth_error].
        -- rewrite (IH xs [] i Hm Hx). destruct b; [|reflexivity].
           now destruct (List.length (filter (fun b0 => b0) (firstn i mask))).
        -- exact (IH xs vals i Hm Hx).
      * cbn [nth_error]. exact (IH xs vals i Hm Hx).
Qed.

Lemma rank_in_lt (mask : list bool) (i : nat) :
  nth_error mask i = Some true -> (rank_in mask i < mask_sum mask)%nat.
Proof.
  unfold rank_in, mask_sum. revert i.
  induction mask as [ | m mask IH]; intros [ | i] H; try discriminate; cbn in H.
  - injection H as ->. cbn. lia.
  - specialize (IH i H). destruct m; cbn; lia.
Qed.

Lemma mask_b_nth (rs : RandomState) (i : nat) :
  (i < n_users)%nat -> nth_error (mask_b rs) i = Some (choice_group rs i).
Proof. intros Hi. rewrite mask_b_index. now apply nth_error_map_seq. Qed.

(** The masked rows are counted off without a gap: every position among
    them is the rank of one masked row. *)
Lemma rank_in_onto (mask : list bool) (k : nat) :
  (k < mask_sum mask)%nat ->
  exists i, nth_error mask i = Some true /\ rank_in mask i = k.
Proof.
  unfold rank_in, mask_sum. revert k.
  induction mask as [ | m mask IH]; intros k Hk; cbn in Hk; [lia|].
  destruct m; cbn in Hk.
  - destruct k as [ | k].
    + exists 0%nat. split; reflexivity.
    + destruct (IH k ltac:(lia)) as (i & Hi & Hr).
      exists (S i). split; [exact Hi|]. cbn. now rewrite Hr.
  - destruct (IH k Hk) as (i & Hi & Hr).
    exists (S i). split; [exact Hi|]. cbn. exact Hr.
Qed.

(** [mask_b.sum()] is the number of rows of group B. *)
Lemma mask_sum_group_size (rs : RandomState) :
  mask_sum (mask_b rs) = group_size (ObjCol (test_group rs)) "B".
Proof.
  unfold mask_sum, mask_b. cbn [group_size].
  induction (test_group rs) as [ | g l IH]; cbn; [reflexivity|].
  destruct (String.eqb g "B"); cbn; now rewrite IH.
Qed.

(** One row of the goal column after line 35. *)
Lemma goal_biased_nth (rs : RandomState) (i : nat) :
  (i < n_users)%nat ->
  exists g,
    nth_error (goal_biased rs) i = Some g /\
    (g = 0 \/ g = 1) /\
    (nth_error (test_group rs) i <> Some "B"%string ->
     nth_error (goal_drawn rs) i = Some g) /\
    (nth_error (test_group rs) i = Some "B"%string ->
     (rank_in (mask_b rs) i < mask_sum (mask_b rs))%nat /\
     nth_error (np_choice 0 1 (choice_goal_b rs) (mask_sum (mask_b rs)))
       (rank_in (mask_b rs) i) = Some g).
Proof.
  intros Hi.
  assert (Hd : nth_error (goal_drawn rs) i = Some (if choice_goal rs i then 1 else 0))
    by (unfold goal_drawn, np_choice; now rewrite nth_error_map_seq).
  pose proof (loc_assign_nth (mask_b rs) (goal_drawn rs)
                (np_choice 0 1 (choice_goal_b rs) (mask_sum (mask_b rs))) i _ _
                (mask_b_nth rs i Hi) Hd) as Hn.
  unfold goal_biased. pose proof (test_group_is_b rs i Hi) as Hb.
  destruct (choice_group rs i) eqn:Eb.
  - assert (Hr : (rank_in (mask_b rs) i < mask_sum (mask_b rs))%nat).
    { apply rank_in_lt. rewrite mask_b_nth by assumption. now rewrite Eb. }
    assert (Hv : nth_error (np_choice 0 1 (choice_goal_b rs) (mask_sum (mask_b rs)))
                   (rank_in (mask_b rs) i)
                 = Some (if choice_goal_b rs (rank_in (mask_b rs) i) then 1 else 0))
      by (unfold np_choice; now rewrite nth_error_map_seq).
    rewrite Hv in Hn.
    eexists. split; [exact Hn|]. split.
    + destruct (choice_goal_b rs _); auto.
    + split; [intros H; exfalso; apply H, Hb; reflexivity | intros _; split; assumption].
  - eexists. split; [exact Hn|]. split.
    + destruct (choice_goal rs i); auto.
    + split; [intros _; exact Hd | intros H; apply Hb in H; discriminate].
Qed.

(** X1. The Platform_Goal_Achieved column of the table the simulator
    returns has 1000 rows, each 0 or 1.  The second draw has exactly
    mask_b.sum() values, one for each row of group B.  A row outside group
    B keeps its first draw; a row of group B holds the redrawn value of its
    rank: the k-th value of the second draw is in the k-th row of group B,
    in row order, and every value of the second draw is in one such row. *)
Theorem goal_column (rs : RandomState) :
  let redraw := np_choice 0 1 (choice_goal_b rs) (mask_sum (mask_b rs)) in
  exists goal,
    get_col "Platform_Goal_Achieved" (simulate_data rs) = Some (IntCol goal) /\
    goal = loc_assign (mask_b rs) (goal_drawn rs) redraw /\
    List.length goal = n_users /\
    List.length redraw = mask_sum (mask_b rs) /\
    mask_sum (mask_b rs) = group_size (ObjCol (test_group rs)) "B" /\
    (forall i, (i < n_users)%nat ->
       exists g,
         nth_error goal i = Some g /\
         (g = 0 \/ g = 1) /\
         (nth_error (test_group rs) i <> Some "B"%string ->
          nth_error (goal_drawn rs) i = Some g) /\
         (nth_error (test_group rs) i = Some "B"%string ->
          (rank_in (mask_b rs) i < List.length redraw)%nat /\
          nth_error redraw (rank_in (mask_b rs) i) = Some g)) /\
    (forall k, (k < List.length redraw)%nat ->
       exists i g,
         (i < n_users)%nat /\
         nth_error (test_group rs) i = Some "B"%string /\
         rank_in (mask_b rs) i = k /\
         nth_error redraw k = Some g /\ nth_error goal i = Some g).
Proof.
  intros redraw.
  assert (Lr : List.length redraw = mask_sum (mask_b rs))
    by (unfold redraw; apply np_choice_length).
  exists (goal_biased rs).
  split; [reflexivity|]. split; [reflexivity|].
  split; [apply (column_lengths rs)|]. split; [exact Lr|].
  split; [apply mask_sum_group_size|]. split.
  - intros i Hi. destruct (goal_biased_nth rs i Hi) as (g & Hg & H01 & Ha & Hb).
    exists g. rewrite Lr. auto.
  - intros k Hk. rewrite Lr in Hk.
    destruct (rank_in_onto (mask_b rs) k Hk) as (i & Hm & Hr).
    assert (Hi : (i < n_users)%nat).
    { assert (Hl : (i < List.length (mask_b rs))%nat)
        by (apply nth_error_Some; congruence).
      rewrite mask_b_index, length_map, length_seq in Hl. exact Hl. }
    assert (HB : nth_error (test_group rs) i = Some "B"%string).
    { apply test_group_is_b; [exact Hi|].
      rewrite mask_b_nth in Hm by exact Hi. congruence. }
    destruct (goal_biased_nth rs i Hi) as (g & Hg & _ & _ & Hb).
    destruct (Hb HB) as [_ Hv]. rewrite Hr in Hv.
    exists i, g. auto.
Qed.

Lemma goal_column_witness :
  let redraw :=
    np_choice 0 1 (choice_goal_b example_source) (mask_sum (mask_b example_source)) in
  exists goal,
    get_col "Platform_Goal_Achieved" (simulate_data example_source) = Some (IntCol goal) /\
    goal = loc_assign (mask_b example_source) (goal_drawn example_source) redraw /\
    List.length goal = n_users /\
    List.length redraw = mask_sum (mask_b example_source) /\
    mask_sum (mask_b example_source)
      = group_size (ObjCol (test_group example_source)) "B" /\
    (forall i, (i < n_users)%nat ->
       exists g,
         nth_error goal i = Some g /\
         (g = 0 \/ g = 1) /\
         (nth_error (test_group example_source) i <> Some "B"%string ->
          nth_error (goal_drawn example_source) i = Some g) /\
         (nth_error (test_group example_source) i = Some "B"%string ->
          (rank_in (mask_b example_source) i < List.length redraw)%nat /\
          nth_error redraw (rank_in (mask_b example_source) i) = Some g)) /\
    (forall k, (k < List.length redraw)%nat ->
       exists i g,
         (i < n_users)%nat /\
         nth_error (test_group example_source) i = Some "B"%string /\
         rank_in (mask_b example_source) i = k /\
         nth_error redraw k = Some g /\ nth_error goal i = Some g).
Proof.
  exact (goal_column example_source).
Defined.

(** In the example every second row is of group B: 500 values are redrawn,
    and row 3, the second row of group B, holds the second of them. *)
Example goal_column_example :
  mask_sum (mask_b example_source) = 500%nat /\
  nth_error (test_group example_source) 3 = Some "B"%string /\
  rank_in (mask_b example_source) 3 = 1%nat /\
  nth_error (goal_drawn example_source) 3 = Some 0 /\
  choice_goal_b example_source 1 = false /\
  get_col "Platform_Goal_Achieved" (simulate_data example_source)
    = Some (IntCol (goal_biased example_source)) /\
  firstn 8 (goal_biased example_source) = [1; 1; 0; 0; 1; 0; 0; 1].
Proof. repeat (split; [by_compute|]). by_compute. Qed.

(** The nine values a score is drawn from. *)
Ltac each_draw u Hu :=
  let H := fresh "H" in
  assert (H : u = 1 \/ u = 2 \/ u = 3 \/ u = 4 \/ u = 5 \/ u = 6 \/ u = 7 \/ u = 8 \/ u = 9)
    by lia;
  clear Hu;
  destruct H as [H | [H | [H | [H | [H | [H | [H | [H | H]]]]]]]]; rewrite H; clear H.

Lemma urgency_row_whole (b : bool) (u : Z) :
  1 <= u < 10 ->
  (if b then (float_of_Z (clip_int u 1 8) + 2.0)%float else float_of_Z u)
  = float_of_Z (if b then clip_int u 1 8 + 2 else u) /\
  clip (if b then (float_of_Z (clip_int u 1 8) + 2.0)%float else float_of_Z u) 1 10
  = (if b then (float_of_Z (clip_int u 1 8) + 2.0)%float else float_of_Z u).
Proof.
  intros Hu. each_draw u Hu; destruct b; split; by_compute.
Qed.

(** X2. The last clamp of Urgency_Messaging_Score to [1,10] changes
    nothing: the column is already within the scale.  Every value is a
    whole number from 1 to 10; a row of group B holds its draw clamped to
    [1,8] plus 2, which is at least 3 and above the draw; any other row
    holds its draw. *)
Theorem urgency_final_clamp_noop (rs : RandomState) :
  urgency_final rs = urgency_biased rs /\
  forall i, (i < n_users)%nat ->
    exists u k,
      nth_error (urgency_drawn rs) i = Some u /\
      nth_error (urgency_final rs) i = Some (float_of_Z k) /\
      1 <= k <= 10 /\
      (nth_error (test_group rs) i = Some "B"%string ->
       k = clip_int u 1 8 + 2 /\ 3 <= k /\ u < k) /\
      (nth_error (test_group rs) i <> Some "B"%string -> k = u).
Proof.
  assert (E : urgency_final rs = urgency_biased rs).
  { unfold urgency_final. rewrite urgency_biased_index, map_map.
    apply map_ext. intros i. cbv zeta.
    apply (urgency_row_whole _ _ (randint_1_10 (randint_urgency rs) i)). }
  split; [exact E|]. intros i Hi.
  pose proof (randint_1_10 (randint_urgency rs) i) as Hu.
  set (u := randint_at 1 10 (randint_urgency rs) i) in *.
  exists u, (if choice_group rs i then clip_int u 1 8 + 2 else u).
  split; [unfold urgency_drawn, np_randint; now rewrite nth_error_map_seq|].
  split.
  { rewrite E, urgency_biased_index, nth_error_map_seq by assumption. cbv zeta. fold u.
    f_equal. apply (urgency_row_whole _ _ Hu). }
  pose proof (test_group_is_b rs i Hi) as Hb.
  destruct (choice_group rs i).
  - unfold clip_int. split; [lia|]. split; [lia|].
    intros H. exfalso. apply H, Hb. reflexivity.
  - split; [lia|]. split; [|reflexivity].
    intros H. apply Hb in H. discriminate.
Qed.

Lemma np_round_1_decimal (c : float) :
  (1 <=? c)%float = true -> (c <=? 10)%float = true ->
  exists k, 10 <= k <= 100 /\ np_round 1 c = (float_of_Z k / 10)%float.
Proof.
  intros Hlo Hhi. destruct (mul10_range c Hlo Hhi) as [H1 H2].
  destruct (rint_range _ H1 H2) as (k & Hk & Ek). exists k. split; [exact Hk|].
  unfold np_round. change (float_of_Z (10 ^ Z.of_nat 1)) with 10%float.
  cbv zeta. now rewrite Ek.
Qed.

Lemma cleaned_decimal (x : float) :
  is_nan x = false ->
  exists k, 10 <= k <= 100 /\ np_round 1 (clip x 1 10) = (float_of_Z k / 10)%float.
Proof.
  intros Hx. pose proof (clip_1_10_range x Hx) as Hc. unfold between in Hc.
  apply andb_prop in Hc as [H1 H2]. now apply np_round_1_decimal.
Qed.

(** X3. Every User_Comprehension_Score of the simulated table is a number
    of tenths: k / 10 for a whole k from 10 to 100, the cleaned draw (less
    1.0 in group B). *)
Theorem comprehension_one_decimal (rs : RandomState) (i : nat) :
  normal_is_number rs -> (i < n_users)%nat ->
  exists x k,
    nth_error (comprehension_drawn rs) i = Some x /\
    10 <= k <= 100 /\
    nth_error (comprehension_final rs) i = Some (float_of_Z k / 10)%float /\
    (nth_error (test_group rs) i = Some "B"%string ->
     (float_of_Z k / 10)%float = np_round 1 (clip (x - 1.0) 1 10)) /\
    (nth_error (test_group rs) i <> Some "B"%string ->
     (float_of_Z k / 10)%float = np_round 1 (clip x 1 10)).
Proof.
  intros Hn Hi.
  destruct (cleaned_decimal _ (comprehension_not_nan rs i Hn)) as (k & Hk & Ek).
  exists (normal_comprehension rs i), k.
  split; [unfold comprehension_drawn, np_normal; now rewrite nth_error_map_seq|].
  split; [exact Hk|]. split.
  { unfold comprehension_final.
    rewrite comprehension_biased_index, map_map, nth_error_map_seq by assumption.
    now rewrite Ek. }
  pose proof (test_group_is_b rs i Hi) as Hb. rewrite <- Ek.
  destruct (choice_group rs i).
  - split; [reflexivity|]. intros H. exfalso. apply H, Hb. reflexivity.
  - split; [|reflexivity]. intros H. apply Hb in H. discriminate.
Qed.

Lemma comprehension_one_decimal_witness :
  exists x k,
    nth_error (comprehension_drawn example_source) 1 = Some x /\
    10 <= k <= 100 /\
    nth_error (comprehension_final example_source) 1 = Some (float_of_Z k / 10)%float /\
    (nth_error (test_group example_source) 1 = Some "B"%string ->
     (float_of_Z k / 10)%float = np_round 1 (clip (x - 1.0) 1 10)) /\
    (nth_error (test_group example_source) 1 <> Some "B"%string ->
     (float_of_Z k / 10)%float = np_round 1 (clip x 1 10)).
Proof.
  apply (comprehension_one_decimal example_source 1 example_source_numbers).
  unfold n_users. lia.
Defined.

Lemma tenth_fixed (k : Z) :
  10 <= k <= 100 ->
  np_round 1 (clip (float_of_Z k / 10) 1 10) = (float_of_Z k / 10)%float.
Proof.
  intros Hk. apply Leibniz.eqb_spec.
  assert (Hall : forallb (fun n => PrimFloat.Leibniz.eqb
                            (np_round 1 (clip (float_of_Z (Z.of_nat n) / 10) 1 10))
                            (float_of_Z (Z.of_nat n) / 10)%float) (seq 10 91) = true)
    by by_compute.
  rewrite forallb_forall in Hall. specialize (Hall (Z.to_nat k)).
  rewrite Z2Nat.id in Hall by lia. apply Hall, in_seq. lia.
Qed.

(** X4. Cleaning User_Comprehension_Score (clamp to [1,10], round to one
    decimal) a second time changes no value of the simulated table. *)
Theorem comprehension_cleanup_idempotent (rs : RandomState) :
  normal_is_number rs ->
  map (fun x => np_round 1 (clip x 1 10)) (comprehension_final rs)
  = comprehension_final rs.
Proof.
  intros Hn. unfold comprehension_final.
  rewrite comprehension_biased_index, !map_map. apply map_ext. intros i.
  destruct (cleaned_decimal _ (comprehension_not_nan rs i Hn)) as (k & Hk & Ek).
  rewrite Ek. now apply tenth_fixed.
Qed.

Lemma comprehension_cleanup_idempotent_witness :
  map (fun x => np_round 1 (clip x 1 10)) (comprehension_final example_source)
  = comprehension_final example_source.
Proof.
  exact (comprehension_cleanup_idempotent example_source example_source_numbers).
Defined.

(* ================================================================== *)
(** * The scorer on the 1-10 scale *)

(** X5. The scorer raises a TypeError on a str feature column with at least
    one row: on OptOut_Difficulty_Score whatever else the table holds, on
    Urgency_Messaging_Score once OptOut_Difficulty_Score is numeric.  A
    TypeError always comes from a feature column that is not numeric, and
    the scorer never raises an IndexError. *)
Theorem scorer_type_error (df : DataFrame) :
  (forall o, get_col "OptOut_Difficulty_Score" df = Some o ->
             is_numeric o = false -> col_len o <> 0%nat ->
             calculate_autonomy_deficit df = Raise TypeError) /\
  (forall o u, get_col "OptOut_Difficulty_Score" df = Some o -> is_numeric o = true ->
               get_col "Urgency_Messaging_Score" df = Some u ->
               is_numeric u = false -> col_len u <> 0%nat ->
               calculate_autonomy_deficit df = Raise TypeError) /\
  (calculate_autonomy_deficit df = Raise TypeError ->
   exists c, is_numeric c = false /\
             (get_col "OptOut_Difficulty_Score" df = Some c \/
              get_col "Urgency_Messaging_Score" df = Some c)) /\
  calculate_autonomy_deficit df <> Raise IndexError.
Proof.
  assert (Hstr : forall c, is_numeric c = false -> col_len c <> 0%nat ->
                           has_str_values c = true)
    by (intros c H1 H2; apply has_str_values_spec; auto).
  assert (Hnum : forall c, has_str_values c = true -> is_numeric c = false)
    by (intros c H; apply has_str_values_spec in H; tauto).
  destruct (scorer_cases df)
    as [(Ho & Hc) | [(o & Ho & So & Hc) | [(o & Ho & So & Hu & Hc)
        | [(o & u & Ho & So & Hu & Su & Hc) | (o & u & df' & Ho & So & Hu & Su & Hc)]]]];
    rewrite Hc; (split; [|split; [|split]]); try discriminate; try (intros; reflexivity).
  - intros o Ho'. congruence.
  - intros o u Ho'. congruence.
  - intros _. exists o. split; [exact (Hnum o So) | auto].
  - intros o' Ho' No Lo. assert (o' = o) by congruence. subst o'.
    rewrite (Hstr o No Lo) in So. discriminate.
  - intros o' u Ho' No Hu'. congruence.
  - intros _. exists u. split; [exact (Hnum u Su) | auto].
  - intros o' Ho' No Lo. assert (o' = o) by congruence. subst o'.
    rewrite (Hstr o No Lo) in So. discriminate.
  - intros o' u' Ho' No Hu' Nu Lu. assert (u' = u) by congruence. subst u'.
    rewrite (Hstr u Nu Lu) in Su. discriminate.
Qed.

Lemma scorer_type_error_witness :
  calculate_autonomy_deficit str_optout_table = Raise TypeError.
Proof.
  apply (proj1 (scorer_type_error str_optout_table) (ObjCol ["low"; "high"]%string)).
  - reflexivity.
  - reflexivity.
  - cbn. discriminate.
Defined.

Lemma nad_on_scale (o u : Z) :
  1 <= o <= 10 -> 1 <= u <= 10 ->
  let x := nad_score (float_of_Z o) (float_of_Z u) in
  (0.9 <=? x)%float = true /\ (x <=? 9.0)%float = true /\
  (0.1 <=? x / max_possible_score)%float = true /\
  (x / max_possible_score <=? 1.0)%float = true /\
  ((x / max_possible_score <? 1.0)%float = negb ((o =? 10) && (u =? 10))).
Proof.
  intros Ho Hu x. subst x.
  assert (H : forallb (fun o => forallb (fun u =>
              let x := nad_score (float_of_Z o) (float_of_Z u) in
              ((0.9 <=? x) && (x <=? 9.0) && (0.1 <=? x / max_possible_score)
               && (x / max_possible_score <=? 1.0))%float
              && Bool.eqb (x / max_possible_score <? 1.0)%float (negb ((o =? 10) && (u =? 10))))
              (map (fun k => 1 + Z.of_nat k) (seq 0 10)))
            (map (fun k => 1 + Z.of_nat k) (seq 0 10)) = true) by by_compute.
  pose proof (Z_range_forall _ 1 10 H o ltac:(lia)) as H1.
  pose proof (Z_range_forall _ 1 10 H1 u ltac:(lia)) as H2. cbv beta zeta in H2.
  apply andb_prop in H2 as [H2 H3]. apply Bool.eqb_prop in H3.
  apply andb_prop in H2 as [H2 H4]. apply andb_prop in H2 as [H2 H5].
  apply andb_prop in H2 as [H2 H6]. auto.
Qed.

Lemma series_add_nth_error (a b : list float) (i : nat) :
  nth_error (series_add a b) i
  = match nth_error a i, nth_error b i with
    | Some x, Some y => Some (x + y)%float
    | _, _ => None
    end.
Proof.
  unfold series_add. revert b i.
  induction a as [ | x a IH]; intros [ | y b] [ | i]; cbn; try reflexivity.
  - now destruct (nth_error a i).
  - apply IH.
Qed.

(** The two new columns, row by row, on any table with the feature columns. *)
Lemma scored_rows (df : DataFrame) (os us : list float) :
  feature "OptOut_Difficulty_Score" df = Some os ->
  feature "Urgency_Messaging_Score" df = Some us ->
  exists df' nad,
    calculate_autonomy_deficit df = Ok df' /\
    get_col "NAD_Score" df' = Some (FloatCol nad) /\
    get_col "NAD_Score_Normalized" df'
      = Some (FloatCol (map (fun x => (x / max_possible_score)%float) nad)) /\
    forall i, nth_error nad i
              = match nth_error os i, nth_error us i with
                | Some o, Some u => Some (nad_score o u)
                | _, _ => None
                end.
Proof.
  intros Ho Hu.
  pose proof (calculate_autonomy_deficit_ok df os us Ho Hu) as Hok. cbv zeta in Hok.
  set (nad := series_add _ _) in Hok.
  eexists. exists nad. split; [exact Hok|].
  split; [rewrite get_col_setitem_other by discriminate; apply get_col_setitem_same|].
  split; [apply get_col_setitem_same|].
  intros i. unfold nad. rewrite series_add_nth_error, !nth_error_map.
  destruct (nth_error os i), (nth_error us i); reflexivity.
Qed.

(** X6. On a table whose two feature columns hold whole scores from 1 to 10,
    every NAD_Score lies in [0.9, 9.0] and every NAD_Score_Normalized in
    [0.1, 1.0]; a row is normalized to exactly 1.0 if and only if both of
    its scores are 10. *)
Theorem nad_within_scale (df : DataFrame) (os us : list float) :
  feature "OptOut_Difficulty_Score" df = Some os ->
  feature "Urgency_Messaging_Score" df = Some us ->
  Forall on_scale os -> Forall on_scale us ->
  exists df' nad nadn,
    calculate_autonomy_deficit df = Ok df' /\
    get_col "NAD_Score" df' = Some (FloatCol nad) /\
    get_col "NAD_Score_Normalized" df' = Some (FloatCol nadn) /\
    Forall (fun x => (0.9 <=? x)%float = true /\ (x <=? 9.0)%float = true) nad /\
    Forall (fun x => (0.1 <=? x)%float = true /\ (x <=? 1.0)%float = true) nadn /\
    forall i, nth_error nadn i = Some 1.0%float <->
              nth_error os i = Some 10.0%float /\ nth_error us i = Some 10.0%float.
Proof.
  intros Ho Hu So Su.
  destruct (scored_rows df os us Ho Hu) as (df' & nad & Hok & Hnad & Hnadn & Hrow).
  exists df', nad, (map (fun x => (x / max_possible_score)%float) nad).
  split; [exact Hok|]. split; [exact Hnad|]. split; [exact Hnadn|].
  assert (Hall : forall i x, nth_error nad i = Some x ->
            exists o u, 1 <= o <= 10 /\ 1 <= u <= 10 /\
              nth_error os i = Some (float_of_Z o) /\ nth_error us i = Some (float_of_Z u) /\
              x = nad_score (float_of_Z o) (float_of_Z u)).
  { intros i x Hx. rewrite Hrow in Hx.
    destruct (nth_error os i) as [o | ] eqn:Eo; [|discriminate].
    destruct (nth_error us i) as [u | ] eqn:Eu; [|discriminate].
    injection Hx as <-.
    rewrite Forall_forall in So, Su.
    destruct (So o (nth_error_In _ _ Eo)) as (ko & Hko & ->).
    destruct (Su u (nth_error_In _ _ Eu)) as (ku & Hku & ->).
    exists ko, ku. auto. }
  split; [|split].
  - apply Forall_forall. intros x Hin. apply In_nth_error in Hin as [i Hi].
    destruct (Hall i x Hi) as (o & u & Ko & Ku & _ & _ & ->).
    destruct (nad_on_scale o u Ko Ku) as (A & B & _). auto.
  - apply Forall_map, Forall_forall. intros x Hin. apply In_nth_error in Hin as [i Hi].
    destruct (Hall i x Hi) as (o & u & Ko & Ku & _ & _ & ->).
    destruct (nad_on_scale o u Ko Ku) as (_ & _ & C & D & _). auto.
  - intros i. rewrite nth_error_map. split.
    + destruct (nth_error nad i) as [x | ] eqn:Ex; [|discriminate]. cbn [option_map].
      intros [= E1].
      destruct (Hall i x Ex) as (o & u & Ko & Ku & Eo & Eu & ->).
      destruct (nad_on_scale o u Ko Ku) as (_ & _ & _ & _ & F). cbv zeta in F.
      rewrite E1 in F. change (1 <? 1.0)%float with false in F.
      symmetry in F. apply negb_false_iff, andb_prop in F as [F1 F2].
      apply Z.eqb_eq in F1, F2. subst o u. auto.
    + intros [Eo Eu]. rewrite Hrow, Eo, Eu. reflexivity.
Qed.

Lemma nad_within_scale_witness :
  exists df' nad nadn,
    calculate_autonomy_deficit example_table = Ok df' /\
    get_col "NAD_Score" df' = Some (FloatCol nad) /\
    get_col "NAD_Score_Normalized" df' = Some (FloatCol nadn) /\
    Forall (fun x => (0.9 <=? x)%float = true /\ (x <=? 9.0)%float = true) nad /\
    Forall (fun x => (0.1 <=? x)%float = true /\ (x <=? 1.0)%float = true) nadn /\
    forall i, nth_error nadn i = Some 1.0%float <->
              nth_error (map float_of_Z [2; 10; 1; 9]) i = Some 10.0%float /\
              nth_error (map float_of_Z [3; 10; 1; 9]) i = Some 10.0%float.
Proof.
  apply (nad_within_scale example_table).
  - reflexivity.
  - reflexivity.
  - repeat constructor;
      [exists 2 | exists 10 | exists 1 | exists 9]; (split; [lia | reflexivity]).
  - repeat constructor;
      [exists 3 | exists 10 | exists 1 | exists 9]; (split; [lia | reflexivity]).
Defined.

Lemma nad_monotone (o o' u u' : Z) :
  1 <= o <= 10 -> 1 <= o' <= 10 -> 1 <= u <= 10 -> 1 <= u' <= 10 ->
  o <= o' -> u <= u' -> o < o' \/ u < u' ->
  let x := nad_score (float_of_Z o) (float_of_Z u) in
  let x' := nad_score (float_of_Z o') (float_of_Z u') in
  (x <? x')%float = true /\
  (x / max_possible_score <? x' / max_possible_score)%float = true.
Proof.
  intros Ho Ho' Hu Hu' Hoo Huu Hs x x'. subst x x'.
  pose (r := map (fun k => 1 + Z.of_nat k) (seq 0 10)).
  assert (H : forallb (fun o => forallb (fun o' => forallb (fun u => forallb (fun u' =>
              implb ((o <=? o') && (u <=? u') && ((o <? o') || (u <? u')))
                    (let x := nad_score (float_of_Z o) (float_of_Z u) in
                     let x' := nad_score (float_of_Z o') (float_of_Z u') in
                     ((x <? x') && (x / max_possible_score <? x' / max_possible_score))%float))
              r) r) r) r = true) by by_compute.
  pose proof (Z_range_forall _ 1 10 H o ltac:(lia)) as H1.
  pose proof (Z_range_forall _ 1 10 H1 o' ltac:(lia)) as H2.
  pose proof (Z_range_forall _ 1 10 H2 u ltac:(lia)) as H3.
  pose proof (Z_range_forall _ 1 10 H3 u' ltac:(lia)) as H4. cbv beta zeta in H4.
  replace ((o <=? o') && (u <=? u') && ((o <? o') || (u <? u'))) with true in H4.
  - cbn [implb] in H4. now apply andb_prop in H4.
  - symmetry. apply andb_true_intro. split; [apply andb_true_intro; split; lia|].
    apply orb_true_iff. lia.
Qed.

(** X7. On the 1-10 scale the score is strictly increasing: between two rows
    of whole scores from 1 to 10, if neither feature of the second row is
    lower and one is higher, the second row has the higher NAD_Score and the
    higher NAD_Score_Normalized; binary64 rounding never ties or reverses
    them. *)
Theorem nad_increasing_on_scale (df : DataFrame) (os us : list float) :
  feature "OptOut_Difficulty_Score" df = Some os ->
  feature "Urgency_Messaging_Score" df = Some us ->
  exists df' nad nadn,
    calculate_autonomy_deficit df = Ok df' /\
    get_col "NAD_Score" df' = Some (FloatCol nad) /\
    get_col "NAD_Score_Normalized" df' = Some (FloatCol nadn) /\
    forall (i j : nat) (o o' u u' : Z),
      nth_error os i = Some (float_of_Z o) -> nth_error us i = Some (float_of_Z u) ->
      nth_error os j = Some (float_of_Z o') -> nth_error us j = Some (float_of_Z u') ->
      1 <= o <= o' -> o' <= 10 -> 1 <= u <= u' -> u' <= 10 -> o < o' \/ u < u' ->
      exists x x' y y',
        nth_error nad i = Some x /\ nth_error nad j = Some x' /\ (x <? x')%float = true /\
        nth_error nadn i = Some y /\ nth_error nadn j = Some y' /\ (y <? y')%float = true.
Proof.
  intros Ho Hu.
  destruct (scored_rows df os us Ho Hu) as (df' & nad & Hok & Hnad & Hnadn & Hrow).
  exists df', nad, (map (fun x => (x / max_possible_score)%float) nad).
  split; [exact Hok|]. split; [exact Hnad|]. split; [exact Hnadn|].
  intros i j o o' u u' Eo Eu Eo' Eu' Ro Ro' Ru Ru' Hs.
  destruct (nad_monotone o o' u u') as [M1 M2]; try lia.
  do 4 eexists. rewrite !nth_error_map, !Hrow, Eo, Eu, Eo', Eu'. cbn [option_map].
  repeat split; assumption.
Qed.

Lemma nad_increasing_on_scale_witness :
  exists df' nad nadn,
    calculate_autonomy_deficit example_table = Ok df' /\
    get_col "NAD_Score" df' = Some (FloatCol nad) /\
    get_col "NAD_Score_Normalized" df' = Some (FloatCol nadn) /\
    forall (i j : nat) (o o' u u' : Z),
      nth_error (map float_of_Z [2; 10; 1; 9]) i = Some (float_of_Z o) ->
      nth_error (map float_of_Z [3; 10; 1; 9]) i = Some (float_of_Z u) ->
      nth_error (map float_of_Z [2; 10; 1; 9]) j = Some (float_of_Z o') ->
      nth_error (map float_of_Z [3; 10; 1; 9]) j = Some (float_of_Z u') ->
      1 <= o <= o' -> o' <= 10 -> 1 <= u <= u' -> u' <= 10 -> o < o' \/ u < u' ->
      exists x x' y y',
        nth_error nad i = Some x /\ nth_error nad j = Some x' /\ (x <? x')%float = true /\
        nth_error nadn i = Some y /\ nth_error nadn j = Some y' /\ (y <? y')%float = true.
Proof.
  apply (nad_increasing_on_scale example_table); reflexivity.
Defined.

Lemma nad_bias_row (o u : Z) :
  1 <= o < 10 -> 1 <= u < 10 ->
  let x := nad_score (float_of_Z o) (clip (float_of_Z (clip_int u 1 8) + 2.0) 1 10) in
  (nad_score (float_of_Z o) (float_of_Z u) <? x)%float = true /\
  (1.9 <=? x)%float = true.
Proof.
  intros Ho Hu x. subst x. apply andb_prop.
  pose (r := map (fun k => 1 + Z.of_nat k) (seq 0 9)).
  assert (H : forallb (fun o => forallb (fun u =>
                let x := nad_score (float_of_Z o)
                           (clip (float_of_Z (clip_int u 1 8) + 2.0) 1 10) in
                ((nad_score (float_of_Z o) (float_of_Z u) <? x) && (1.9 <=? x))%float) r) r
              = true) by by_compute.
  pose proof (Z_range_forall _ 1 9 H o ltac:(lia)) as H1.
  exact (Z_range_forall _ 1 9 H1 u ltac:(lia)).
Qed.

(** X8. The injected bias shows in the score.  In the scored simulated
    table a row of group B has a NAD_Score above the score of its two
    draws, and at least 1.9; any other row has exactly the score of its two
    draws. *)
Theorem simulated_nad_bias (rs : RandomState) :
  exists df' nad,
    calculate_autonomy_deficit (simulate_data rs) = Ok df' /\
    get_col "NAD_Score" df' = Some (FloatCol nad) /\
    forall i, (i < n_users)%nat ->
      exists o u x,
        nth_error (optout_drawn rs) i = Some o /\
        nth_error (urgency_drawn rs) i = Some u /\
        nth_error nad i = Some x /\
        (nth_error (test_group rs) i = Some "B"%string ->
         (nad_score (float_of_Z o) (float_of_Z u) <? x)%float = true /\
         (1.9 <=? x)%float = true) /\
        (nth_error (test_group rs) i <> Some "B"%string ->
         x = nad_score (float_of_Z o) (float_of_Z u)).
Proof.
  destruct (simulated_features rs) as [Fo Fu].
  pose proof (calculate_autonomy_deficit_ok _ _ _ Fo Fu) as Hok. cbv zeta in Hok.
  rewrite simulated_nad_index in Hok.
  eexists. eexists. split; [exact Hok|].
  split; [rewrite get_col_setitem_other by discriminate; apply get_col_setitem_same|].
  intros i Hi.
  pose proof (randint_1_10 (randint_optout rs) i) as Ho.
  pose proof (randint_1_10 (randint_urgency rs) i) as Hu.
  set (o := randint_at 1 10 (randint_optout rs) i) in *.
  set (u := randint_at 1 10 (randint_urgency rs) i) in *.
  exists o, u. eexists.
  split; [unfold optout_drawn, np_randint; now rewrite nth_error_map_seq|].
  split; [unfold urgency_drawn, np_randint; now rewrite nth_error_map_seq|].
  split; [rewrite nth_error_map_seq by assumption; cbv zeta; fold o u; reflexivity|].
  pose proof (test_group_is_b rs i Hi) as Hb.
  destruct (choice_group rs i).
  - split; [intros _; apply (nad_bias_row o u Ho Hu)|].
    intros H. exfalso. apply H, Hb. reflexivity.
  - split; [intros H; apply Hb in H; discriminate|].
    intros _. f_equal. apply (urgency_row_whole false u Hu).
Qed.

(* ================================================================== *)
(** * The reporter's figures *)

(** X9. The signs of the two reported figures.  On a table with rows of
    both groups the platform gain is positive exactly when the mean goal of
    group B is above that of group A and negative exactly when it is below;
    the comprehension drop is positive exactly when the mean comprehension
    of group A is above that of group B and negative exactly when it is
    below. *)
Theorem tradeoff_signs (mean : list float -> float) (df : DataFrame)
    (labels : list string) (goal compr : list float) :
  get_col "Test_Group" df = Some (ObjCol labels) ->
  feature "Platform_Goal_Achieved" df = Some goal ->
  feature "User_Comprehension_Score" df = Some compr ->
  In "A"%string labels -> In "B"%string labels ->
  let goal_a := mean (group_values labels "A" goal) in
  let goal_b := mean (group_values labels "B" goal) in
  let compr_a := mean (group_values labels "A" compr) in
  let compr_b := mean (group_values labels "B" compr) in
  exists gain cost,
    generate_visualization mean df
    = Ok [ {| Metric := "Platform Goal Increase (%)"; Value := gain;
              Type_ := "Platform Gain (Desired)" |};
           {| Metric := "User Comprehension Drop (Points)"; Value := cost;
              Type_ := "User Cost (Ethical Concern)" |} ] /\
    (0 <? gain)%float = (goal_a <? goal_b)%float /\
    (gain <? 0)%float = (goal_b <? goal_a)%float /\
    (0 <? cost)%float = (compr_b <? compr_a)%float /\
    (cost <? 0)%float = (compr_a <? compr_b)%float.
Proof.
  intros Ht Hg Hc Ha Hb goal_a goal_b compr_a compr_b.
  exists ((goal_b - goal_a) * 100)%float, (compr_a - compr_b)%float.
  split.
  - rewrite (generate_visualization_read mean df _ goal compr Ht Hg Hc).
    unfold tradeoff_of. rewrite !loc_iloc0_group_metrics.
    apply existsb_eqb_in in Ha, Hb. rewrite Ha, Hb. reflexivity.
  - destruct (percent_signs goal_a goal_b) as [P1 P2].
    destruct (difference_signs compr_b compr_a) as [D1 D2]. auto.
Qed.

Lemma tradeoff_signs_witness :
  let goal := map float_of_Z rates_goal in
  let goal_a := mean_f64 (group_values rates_labels "A" goal) in
  let goal_b := mean_f64 (group_values rates_labels "B" goal) in
  let compr_a := mean_f64 (group_values rates_labels "A" rates_compr) in
  let compr_b := mean_f64 (group_values rates_labels "B" rates_compr) in
  exists gain cost,
    generate_visualization mean_f64 rates_table
    = Ok [ {| Metric := "Platform Goal Increase (%)"; Value := gain;
              Type_ := "Platform Gain (Desired)" |};
           {| Metric := "User Comprehension Drop (Points)"; Value := cost;
              Type_ := "User Cost (Ethical Concern)" |} ] /\
    (0 <? gain)%float = (goal_a <? goal_b)%float /\
    (gain <? 0)%float = (goal_b <? goal_a)%float /\
    (0 <? cost)%float = (compr_b <? compr_a)%float /\
    (cost <? 0)%float = (compr_a <? compr_b)%float.
Proof.
  apply (tradeoff_signs mean_f64 rates_table rates_labels
           (map float_of_Z rates_goal) rates_compr).
  - reflexivity.
  - reflexivity.
  - reflexivity.
  - left. reflexivity.
  - do 4 right. left. reflexivity.
Defined.

Lemma scorer_ok_inv (df df' : DataFrame) :
  calculate_autonomy_deficit df = Ok df' ->
  exists nad nadn,
    df' = setitem "NAD_Score_Normalized" (FloatCol nadn) (setitem "NAD_Score" (FloatCol nad) df).
Proof.
  unfold calculate_autonomy_deficit, getitem, series_mul, series_div.
  destruct (get_col "OptOut_Difficulty_Score" df) as [o | ]; cbn [bind]; [|discriminate].
  destruct (astype_float o) as [os | e]; cbn [bind]; [|discriminate].
  destruct (get_col "Urgency_Messaging_Score" df) as [u | ]; cbn [bind]; [|discriminate].
  destruct (astype_float u) as [us | e]; cbn [bind]; [|discriminate].
  rewrite get_col_setitem_same. cbn [bind astype_float].
  intros [= <-]. eauto.
Qed.

Lemma generate_visualization_setitem (mean : list float -> float) (df : DataFrame)
    (c1 c2 : column) :
  generate_visualization mean
    (setitem "NAD_Score_Normalized" c2 (setitem "NAD_Score" c1 df))
  = generate_visualization mean df.
Proof.
  unfold generate_visualization, getitem.
  rewrite !get_col_setitem_other by discriminate. reflexivity.
Qed.

(** X10. The reporter does not read what the scorer writes: on the table
    the scorer returns it gives the same result, figures or error, as on
    the table the scorer was given. *)
Theorem reporter_ignores_scores (mean : list float -> float) (df df' : DataFrame) :
  calculate_autonomy_deficit df = Ok df' ->
  generate_visualization mean df' = generate_visualization mean df.
Proof.
  intros H. destruct (scorer_ok_inv df df' H) as (nad & nadn & ->).
  apply generate_visualization_setitem.
Qed.

Lemma reporter_ignores_scores_witness :
  exists df',
    calculate_autonomy_deficit audit_table = Ok df' /\
    generate_visualization mean_f64 df' = generate_visualization mean_f64 audit_table.
Proof.
  eexists. split.
  - reflexivity.
  - apply (reporter_ignores_scores mean_f64 audit_table). reflexivity.
Defined.

(** X11. The reporter raises a KeyError exactly when Test_Group,
    Platform_Goal_Achieved or User_Comprehension_Score is absent, whatever
    the table holds otherwise; an absent Test_Group is the one named. *)
Theorem reporter_key_error (mean : list float -> float) (df : DataFrame) :
  (get_col "Test_Group" df = None ->
   generate_visualization mean df = Raise (KeyError "Test_Group")) /\
  ((exists k, generate_visualization mean df = Raise (KeyError k)) <->
   get_col "Test_Group" df = None \/
   get_col "Platform_Goal_Achieved" df = None \/
   get_col "User_Comprehension_Score" df = None).
Proof.
  unfold generate_visualization, getitem.
  destruct (get_col "Test_Group" df) as [tg | ] eqn:Et; cbn [bind].
  2:{ split; [reflexivity|]. split; eauto. }
  destruct (get_col "Platform_Goal_Achieved" df) as [g | ] eqn:Eg; cbn [bind].
  2:{ split; [discriminate|]. split; eauto. }
  destruct (get_col "User_Comprehension_Score" df) as [c | ] eqn:Ec; cbn [bind].
  2:{ split; [discriminate|]. split; eauto. }
  split; [discriminate|]. split.
  - intros [k Hk]. exfalso. revert Hk.
    destruct (astype_float_cases g) as [[_ Ag] | [_ [gs Ag]]]; rewrite Ag; cbn [bind];
      [discriminate|].
    destruct (astype_float_cases c) as [[_ Ac] | [_ [cs Ac]]]; rewrite Ac; cbn [bind];
      [discriminate|].
    destruct tg as [ls | ls | ls]; try discriminate.
    unfold tradeoff_of. rewrite !loc_iloc0_group_metrics.
    destruct (existsb (String.eqb "B") ls), (existsb (String.eqb "A") ls);
      cbn [bind]; discriminate.
  - intros [H | [H | H]]; discriminate.
Qed.

Lemma reporter_key_error_witness :
  generate_visualization mean_f64 no_urgency_table = Raise (KeyError "Test_Group").
Proof.
  apply (proj1 (reporter_key_error mean_f64 no_urgency_table)). reflexivity.
Defined.

Lemma str_lt_trans (a b c : string) : str_lt a b -> str_lt b c -> str_lt a c.
Proof.
  unfold str_lt. intros H1 H2.
  apply OrderedTypeEx.String_as_OT.cmp_lt. apply OrderedTypeEx.String_as_OT.cmp_lt in H1, H2.
  eapply OrderedTypeEx.String_as_OT.lt_trans; eassumption.
Qed.

Lemma str_lt_irrefl (a : string) : ~ str_lt a a.
Proof.
  unfold str_lt. intros H.
  pose proof (String.compare_antisym a a) as E. rewrite H in E. discriminate.
Qed.

Lemma insert_key_sorted (k : string) (l : list string) :
  StronglySorted str_lt l -> StronglySorted str_lt (insert_key k l).
Proof.
  induction 1 as [ | h t Ht IH Hall]; cbn.
  - constructor; constructor.
  - destruct (String.compare k h) eqn:E.
    + now constructor.
    + constructor; [now constructor|].
      constructor; [exact E|].
      eapply Forall_impl; [|exact Hall]. intros x Hx. eapply str_lt_trans; eassumption.
    + constructor; [exact IH|].
      apply Forall_forall. intros x Hx. apply insert_key_in in Hx as [-> | Hx].
      * unfold str_lt. rewrite String.compare_antisym, E. reflexivity.
      * rewrite Forall_forall in Hall. auto.
Qed.

Lemma group_keys_sorted (labels : list string) : StronglySorted str_lt (group_keys labels).
Proof.
  unfold group_keys. induction labels as [ | h t IH]; cbn.
  - constructor.
  - now apply insert_key_sorted.
Qed.

Lemma sorted_NoDup (l : list string) : StronglySorted str_lt l -> NoDup l.
Proof.
  induction 1 as [ | h t Ht IH Hall]; constructor; [|exact IH].
  intros Hin. rewrite Forall_forall in Hall. exact (str_lt_irrefl h (Hall h Hin)).
Qed.

(** X12. The grouped table has one row per group label: its Test_Group
    values are strictly increasing in str order, hence without duplicates,
    they are exactly the labels that occur in the column, and there are no
    more of them than rows. *)
Theorem group_metrics_sorted (mean : list float -> float) (labels : list string)
    (goal compr : list float) :
  let keys := map Test_Group (group_metrics mean labels goal compr) in
  StronglySorted str_lt keys /\ NoDup keys /\
  (forall k, In k keys <-> In k labels) /\
  (List.length keys <= List.length labels)%nat.
Proof.
  intros keys.
  assert (E : keys = group_keys labels).
  { unfold keys, group_metrics. rewrite map_map. cbn. apply map_id. }
  rewrite E. pose proof (group_keys_sorted labels) as S.
  split; [exact S|]. split; [exact (sorted_NoDup _ S)|].
  split; [intros k; apply group_keys_in|].
  apply NoDup_incl_length; [exact (sorted_NoDup _ S)|].
  intros k. apply group_keys_in.
Qed.

(* ================================================================== *)
(** * The whole run: simulate, score, report *)

Lemma test_group_in (rs : RandomState) :
  (In "A"%string (test_group rs) <->
   exists i, (i < n_users)%nat /\ choice_group rs i = false) /\
  (In "B"%string (test_group rs) <->
   exists i, (i < n_users)%nat /\ choice_group rs i = true).
Proof.
  unfold test_group, np_choice. rewrite !in_map_iff. split; split.
  - intros (i & E & Hi). apply in_seq in Hi. exists i. split; [lia|].
    destruct (choice_group rs i); [discriminate | reflexivity].
  - intros (i & Hi & E). exists i. rewrite E. split; [reflexivity | apply in_seq; lia].
  - intros (i & E & Hi). apply in_seq in Hi. exists i. split; [lia|].
    destruct (choice_group rs i); [reflexivity | discriminate].
  - intros (i & Hi & E). exists i. rewrite E. split; [reflexivity | apply in_seq; lia].
Qed.

(** X13. Simulating, scoring and reporting in a row never fails on a column
    or a type.  When the draws put rows in both groups the run returns the
    two figures computed from the simulated columns; when all 1000 draws
    fall into one group it raises an IndexError; it raises no other
    error. *)
Theorem audit_run (mean : list float -> float) (rs : RandomState) :
  let tg := test_group rs in
  let goal := map float_of_Z (goal_biased rs) in
  let compr := comprehension_final rs in
  let run := (scored <- calculate_autonomy_deficit (simulate_data rs) ;;
              generate_visualization mean scored) in
  ((exists i, (i < n_users)%nat /\ choice_group rs i = false) ->
   (exists j, (j < n_users)%nat /\ choice_group rs j = true) ->
   run = Ok [ {| Metric := "Platform Goal Increase (%)";
                 Value := ((mean (group_values tg "B" goal)
                            - mean (group_values tg "A" goal)) * 100)%float;
                 Type_ := "Platform Gain (Desired)" |};
              {| Metric := "User Comprehension Drop (Points)";
                 Value := (mean (group_values tg "A" compr)
                           - mean (group_values tg "B" compr))%float;
                 Type_ := "User Cost (Ethical Concern)" |} ]) /\
  ((forall i, (i < n_users)%nat -> choice_group rs i = false) \/
   (forall i, (i < n_users)%nat -> choice_group rs i = true) ->
   run = Raise IndexError) /\
  (forall e, run = Raise e -> e = IndexError).
Proof.
  intros tg goal compr run.
  destruct (simulated_features rs) as [Fo Fu].
  pose proof (calculate_autonomy_deficit_ok _ _ _ Fo Fu) as Hok. cbv zeta in Hok.
  assert (Hrun : run = tradeoff_of (group_metrics mean tg goal compr)).
  { unfold run. rewrite Hok. cbn [bind]. rewrite generate_visualization_setitem.
    apply (generate_visualization_read mean (simulate_data rs) (ObjCol tg) goal compr);
      reflexivity. }
  rewrite Hrun. unfold tradeoff_of. rewrite !loc_iloc0_group_metrics.
  destruct (test_group_in rs) as [HA HB]. fold tg in HA, HB.
  rewrite <- existsb_eqb_in in HA, HB.
  destruct (existsb (String.eqb "A") tg) eqn:EA, (existsb (String.eqb "B") tg) eqn:EB;
    cbn [bind Goal_Rate Comprehension_Avg].
  - split; [reflexivity|]. split; [|discriminate].
    intros [H | H].
    + destruct (proj1 HB eq_refl) as (j & Hj & Ej). rewrite (H j Hj) in Ej. discriminate.
    + destruct (proj1 HA eq_refl) as (j & Hj & Ej). rewrite (H j Hj) in Ej. discriminate.
  - split; [|split; [reflexivity | now intros e [= <-]]].
    intros _ Hj. apply HB in Hj. discriminate.
  - split; [|split; [reflexivity | now intros e [= <-]]].
    intros Hi _. apply HA in Hi. discriminate.
  - split; [|split; [reflexivity | now intros e [= <-]]].
    intros Hi _. apply HA in Hi. discriminate.
Qed.

Lemma audit_run_witness :
  let tg := test_group example_source in
  let goal := map float_of_Z (goal_biased example_source) in
  let compr := comprehension_final example_source in
  (scored <- calculate_autonomy_deficit (simulate_data example_source) ;;
   generate_visualization mean_f64 scored)
  = Ok [ {| Metric := "Platform Goal Increase (%)";
            Value := ((mean_f64 (group_values tg "B" goal)
                       - mean_f64 (group_values tg "A" goal)) * 100)%float;
            Type_ := "Platform Gain (Desired)" |};
         {| Metric := "User Comprehension Drop (Points)";
            Value := (mean_f64 (group_values tg "A" compr)
                      - mean_f64 (group_values tg "B" compr))%float;
            Type_ := "User Cost (Ethical Concern)" |} ].
Proof.
  apply (proj1 (audit_run mean_f64 example_source)).
  - exists 0%nat. split; [unfold n_users; lia | reflexivity].
  - exists 1%nat. split; [unfold n_users; lia | reflexivity].
Defined.
